(** * The OCSP status registry (internal/api/grpc_server.go)

    A shallow embedding of the three gRPC handlers [UpdateStatus],
    [CheckStatus] and [BatchUpdateStatus] of [OCSPGRPCServer].

    The handlers talk to three collaborators that live outside the
    repository: the PostgreSQL pool ([s.db]), the process clock
    ([time.Now], [timestamppb.Now]) and the logger.  They are modelled as
    follows.
    - The table [ocsp_responses] is a finite map from the unique key
      [serial] to the remaining columns.
    - A statement sent to the pool either completes or fails with a cause;
      which one happens, and what [NOW()] evaluates to, is read from an
      oracle ([Env]) indexed by the number of statements issued so far.
      A failed statement leaves the table as it was.
    - Every reading of the process clock takes the next value of a second
      oracle.
    - Log calls append to a list kept in the state.

    Times are integers counting nanoseconds, as [time.Duration] does; a
    timestamp column holds whole microseconds, and a row is kept with the
    instants its columns stand for. *)

From Stdlib Require Import ZArith Lia.
From stdpp Require Import base option list strings gmap.

Local Open Scope Z_scope.
Local Open Scope string_scope.

(** ** Go integers *)

Module goint.

(** Two's complement reduction of [z] to a signed integer of [bits] bits:
    Go's conversions and arithmetic on fixed-size integers wrap around. *)
Definition wrap (bits : Z) (z : Z) : Z :=
  (z + 2 ^ (bits - 1)) mod 2 ^ bits - 2 ^ (bits - 1).

(** [int] on the 64-bit targets the service is built for. *)
Definition int (z : Z) : Z := wrap 64 z.

(** Arithmetic on [int64]. *)
Definition int64 (z : Z) : Z := wrap 64 z.

(** The conversion [int32(x)]. *)
Definition int32 (z : Z) : Z := wrap 32 z.

(** [x++] on an [int]. *)
Definition incr (x : Z) : Z := int (x + 1).

(** [len(xs)] of a slice. *)
Definition len {A} (xs : list A) : Z := Z.of_nat (length xs).

End goint.

(** ** package time *)

Module time.

Definition Time := Z.
Definition Duration := Z.

Definition Nanosecond : Duration := 1.
Definition Microsecond : Duration := 1000 * Nanosecond.
Definition Millisecond : Duration := 1000 * Microsecond.
Definition Second : Duration := 1000 * Millisecond.
Definition Minute : Duration := 60 * Second.
Definition Hour : Duration := 60 * Minute.

Definition Add (t : Time) (d : Duration) : Time := t + d.

(** [t.Unix()]: the whole seconds since the epoch, rounded down. *)
Definition Time_Unix (t : Time) : Z := t / 1000000000.

(** [t.Nanosecond()]: the nanoseconds within the second, 0 to 999999999. *)
Definition Time_Nanosecond (t : Time) : Z := t mod 1000000000.

(** [time.Unix(sec, nsec)]. *)
Definition Unix (sec nsec : Z) : Time := sec * 1000000000 + nsec.

End time.

(** ** google.golang.org/grpc: codes and status *)

Module codes.

Inductive Code := InvalidArgument | Internal.

Definition String (c : Code) : string :=
  match c with
  | InvalidArgument => "InvalidArgument"
  | Internal => "Internal"
  end.

End codes.

Module status.

(** The error value built by [status.Error(c, msg)]. *)
Record Status := Error { Code : codes.Code; Message : string }.

(** The method [Error()] of such an error. *)
Definition ErrorString (st : Status) : string :=
  "rpc error: code = " +:+ codes.String (Code st) +:+ " desc = " +:+ Message st.

End status.

(** ** The logger *)

Module zap.

Inductive Field :=
| String (key val : string)
| Int (key : string) (val : Z)
| Err (cause : string).

Inductive Level := InfoLevel | WarnLevel | ErrorLevel.

Record Entry := mkEntry { level : Level; msg : string; fields : list Field }.

End zap.

(** ** The store *)

Module pgx.

(** One row of [ocsp_responses], without its key: the columns
    [status], [this_update], [next_update], [revoked_at] (nullable) and
    [revocation_reason]. *)
Record Row := mkRow {
  status : string;
  this_update : time.Time;
  next_update : time.Time;
  revoked_at : option time.Time;
  revocation_reason : string
}.

(** What a call to the pool can come back with. *)
Inductive error :=
| ErrNoRows
| ErrFailed (cause : string).

(** Microseconds from 1970-01-01 to 2000-01-01, the origin of the store's
    timestamps. *)
Definition microsecFromUnixEpochToY2K : Z := 946684800 * 1000000.

(** A [time.Time] parameter as it is sent for a timestamp column:
    microseconds since 2000-01-01, computed in [int64] as
    [t.Unix()*1000000 + int64(t.Nanosecond())/1000] less the origin. *)
Definition encode_timestamp (t : time.Time) : Z :=
  goint.int64
    (goint.int64 (goint.int64 (time.Time_Unix t * 1000000)
                  + time.Time_Nanosecond t / 1000)
     - microsecFromUnixEpochToY2K).

(** A timestamp column as [Scan] gives it back in a [time.Time]; the
    division and the remainder are Go's, which round towards zero. *)
Definition decode_timestamp (microsecSinceY2K : Z) : time.Time :=
  let microsecSinceUnixEpoch :=
    goint.int64 (microsecFromUnixEpochToY2K + microsecSinceY2K) in
  time.Unix (Z.quot microsecSinceUnixEpoch 1000000)
            (Z.rem microsecSinceUnixEpoch 1000000 * 1000).

(** The instant a timestamp column holds after [t] was written to it. *)
Definition timestamp (t : time.Time) : time.Time :=
  decode_timestamp (encode_timestamp t).

(** [INTERVAL '24 hours']. *)
Definition interval_24_hours : time.Duration := 24 * time.Hour.

(** The statement of [UpdateStatus], run at statement time [now] with
    the parameters [$1 .. $4]: an insert, or on a conflict on [serial]
    the listed assignments over the proposed row [EXCLUDED]. *)
Definition upsert (now : time.Time) (serial st : string)
    (revokedAt : option time.Time) (reason : string)
    (tbl : gmap string Row) : gmap string Row :=
  let excluded :=
    mkRow st now (now + interval_24_hours) revokedAt reason in
  match tbl !! serial with
  | None => <[serial := excluded]> tbl
  | Some _ =>
      <[serial := mkRow (status excluded) now (now + interval_24_hours)
                        (revoked_at excluded) (revocation_reason excluded)]> tbl
  end.

(** The query of [CheckStatus]: the row whose key is [$1], if any. *)
Definition select (serial : string) (tbl : gmap string Row) : option Row :=
  tbl !! serial.

End pgx.

(** ** The messages of the service (shared/api/proto/ocsp) *)

Module ocsp.

(** A message field of type [*timestamppb.Timestamp] is [None] when the
    pointer is nil. *)

Module UpdateStatusRequest.
Record t := mk {
  SerialNumber : string;
  Status : string;
  RevokedAt : option time.Time;
  RevocationReason : string
}.
End UpdateStatusRequest.

Module UpdateStatusResponse.
Record t := mk { Success : bool; Message : string }.
End UpdateStatusResponse.

Module CheckStatusRequest.
Record t := mk { SerialNumber : string }.
End CheckStatusRequest.

Module CheckStatusResponse.
Record t := mk {
  Status : string;
  ThisUpdate : option time.Time;
  NextUpdate : option time.Time;
  RevokedAt : option time.Time;
  RevocationReason : string
}.
End CheckStatusResponse.

Module BatchUpdateStatusRequest.
Record t := mk { Updates : list UpdateStatusRequest.t }.
End BatchUpdateStatusRequest.

Module BatchUpdateStatusResponse.
Record t := mk {
  SuccessCount : Z;
  FailureCount : Z;
  Errors : list string
}.
End BatchUpdateStatusResponse.

End ocsp.

(** ** The handlers *)

Module api.

Import ocsp.

(** The outside world as the handlers meet it: whether the [n]-th
    statement sent to the pool fails (and why), the value of [NOW()] in
    it, and the [n]-th reading of the process clock. *)
Record Env := mkEnv {
  db_fault : nat -> option string;
  db_now : nat -> time.Time;
  wall : nat -> time.Time
}.

Record World := mkWorld {
  ocsp_responses : gmap string pgx.Row;
  statements : nat;
  clock_reads : nat;
  log : list zap.Entry
}.

(** A Go result pair [(value, err)] with exactly one side set. *)
Inductive result (E A : Type) :=
| Ok (a : A)
| Err (e : E).
Arguments Ok {E A} a.
Arguments Err {E A} e.

Definition M (A : Type) : Type := Env -> World -> A * World.

Definition ret {A} (a : A) : M A := fun _ w => (a, w).

Definition bind {A B} (c : M A) (k : A -> M B) : M B :=
  fun e w => let (a, w') := c e w in k a e w'.

Declare Scope go_scope.
Delimit Scope go_scope with go.
Notation "x <- c ;; k" := (bind c (fun x => k))
  (at level 100, c at next level, right associativity) : go_scope.
Notation "c ;; k" := (bind c (fun _ => k))
  (at level 100, right associativity) : go_scope.
Local Open Scope go_scope.

(** *** Collaborators *)

Definition logger (lvl : zap.Level) (msg : string) (fields : list zap.Field)
  : M unit :=
  fun _ w =>
    (tt, mkWorld (ocsp_responses w) (statements w) (clock_reads w)
                 (log w ++ [zap.mkEntry lvl msg fields])).

(** [time.Now()], also behind [timestamppb.Now()]. *)
Definition Now : M time.Time :=
  fun e w =>
    (wall e (clock_reads w),
     mkWorld (ocsp_responses w) (statements w) (S (clock_reads w)) (log w)).

(** [s.db.Exec(ctx, query, $1, $2, $3, $4)] with the upsert of
    [UpdateStatus]; [$3] reaches the column [revoked_at] through the
    encoding of timestamps. *)
Definition Exec (serial st : string) (revokedAt : option time.Time)
    (reason : string) : M (option pgx.error) :=
  fun e w =>
    let n := statements w in
    match db_fault e n with
    | Some cause =>
        (Some (pgx.ErrFailed cause),
         mkWorld (ocsp_responses w) (S n) (clock_reads w) (log w))
    | None =>
        (None,
         mkWorld (pgx.upsert (db_now e n) serial st
                             (option_map pgx.timestamp revokedAt) reason
                             (ocsp_responses w))
                 (S n) (clock_reads w) (log w))
    end.

(** [s.db.QueryRow(ctx, query, $1).Scan(...)] with the query of
    [CheckStatus]. *)
Definition QueryRowScan (serial : string) : M (result pgx.error pgx.Row) :=
  fun e w =>
    let n := statements w in
    let w' := mkWorld (ocsp_responses w) (S n) (clock_reads w) (log w) in
    match db_fault e n with
    | Some cause => (Err (pgx.ErrFailed cause), w')
    | None =>
        match pgx.select serial (ocsp_responses w) with
        | None => (Err pgx.ErrNoRows, w')
        | Some row => (Ok row, w')
        end
    end.

(** The text of a store error, as [zap.Error(err)] records it. *)
Definition cause_of (err : pgx.error) : string :=
  match err with
  | pgx.ErrNoRows => "no rows in result set"
  | pgx.ErrFailed cause => cause
  end.

(** *** UpdateStatus *)

Definition UpdateStatus (req : UpdateStatusRequest.t)
  : M (result status.Status UpdateStatusResponse.t) :=
  logger zap.InfoLevel "Received UpdateStatus request"
    [zap.String "serial" (UpdateStatusRequest.SerialNumber req);
     zap.String "status" (UpdateStatusRequest.Status req)] ;;
  if (UpdateStatusRequest.SerialNumber req =? "")%string then
    ret (Err (status.Error codes.InvalidArgument "serial number is required"))
  else
    (* req.Status = "good" when it is empty *)
    let Status :=
      if (UpdateStatusRequest.Status req =? "")%string then "good"
      else UpdateStatusRequest.Status req in
    if negb (Status =? "good")%string && negb (Status =? "revoked")%string
       && negb (Status =? "unknown")%string then
      ret (Err (status.Error codes.InvalidArgument
                  "invalid status (must be: good, revoked, or unknown)"))
    else
      let revokedAt :=
        if (Status =? "revoked")%string then
          match UpdateStatusRequest.RevokedAt req with
          | Some t => Some t
          | None => None
          end
        else None in
      err <- Exec (UpdateStatusRequest.SerialNumber req) Status revokedAt
                  (UpdateStatusRequest.RevocationReason req) ;;
      match err with
      | Some err =>
          logger zap.ErrorLevel "Failed to update OCSP status"
            [zap.Err (cause_of err)] ;;
          ret (Err (status.Error codes.Internal "failed to update status"))
      | None =>
          logger zap.InfoLevel "OCSP status updated"
            [zap.String "serial" (UpdateStatusRequest.SerialNumber req)] ;;
          ret (Ok (UpdateStatusResponse.mk true "status updated successfully"))
      end.

(** *** CheckStatus *)

Definition CheckStatus (req : CheckStatusRequest.t)
  : M (result status.Status CheckStatusResponse.t) :=
  logger zap.InfoLevel "Received CheckStatus request"
    [zap.String "serial" (CheckStatusRequest.SerialNumber req)] ;;
  if (CheckStatusRequest.SerialNumber req =? "")%string then
    ret (Err (status.Error codes.InvalidArgument "serial number is required"))
  else
    r <- QueryRowScan (CheckStatusRequest.SerialNumber req) ;;
    match r with
    | Err _ =>
        logger zap.WarnLevel "Certificate status not found"
          [zap.String "serial" (CheckStatusRequest.SerialNumber req)] ;;
        thisUpdate <- Now ;;
        now <- Now ;;
        ret (Ok (CheckStatusResponse.mk "unknown" (Some thisUpdate)
                   (Some (time.Add now (24 * time.Hour))) None ""))
    | Ok row =>
        let resp :=
          CheckStatusResponse.mk (pgx.status row)
            (Some (pgx.this_update row)) (Some (pgx.next_update row))
            None "" in
        let resp :=
          match pgx.revoked_at row with
          | Some revokedAt =>
              CheckStatusResponse.mk
                (CheckStatusResponse.Status resp)
                (CheckStatusResponse.ThisUpdate resp)
                (CheckStatusResponse.NextUpdate resp)
                (Some revokedAt) (pgx.revocation_reason row)
          | None => resp
          end in
        logger zap.InfoLevel "OCSP status checked"
          [zap.String "serial" (CheckStatusRequest.SerialNumber req);
           zap.String "status" (pgx.status row)] ;;
        ret (Ok resp)
    end.

(** *** BatchUpdateStatus *)

(** The [for _, update := range req.Updates] loop, over the three
    variables it updates. *)
Fixpoint range_Updates (updates : list UpdateStatusRequest.t)
    (successCount failureCount : Z) (errors : list string)
  : M (Z * Z * list string) :=
  match updates with
  | [] => ret (successCount, failureCount, errors)
  | update :: rest =>
      r <- UpdateStatus update ;;
      match r with
      | Err err =>
          range_Updates rest successCount (goint.incr failureCount)
            (errors ++ [status.ErrorString err])
      | Ok _ =>
          range_Updates rest (goint.incr successCount) failureCount errors
      end
  end.

Definition BatchUpdateStatus (req : BatchUpdateStatusRequest.t)
  : M (result status.Status BatchUpdateStatusResponse.t) :=
  logger zap.InfoLevel "Received BatchUpdateStatus request"
    [zap.Int "count" (goint.len (BatchUpdateStatusRequest.Updates req))] ;;
  counts <- range_Updates (BatchUpdateStatusRequest.Updates req) 0 0 [] ;;
  let '(successCount, failureCount, errors) := counts in
  logger zap.InfoLevel "Batch update completed"
    [zap.Int "success" successCount; zap.Int "failure" failureCount] ;;
  ret (Ok (BatchUpdateStatusResponse.mk (goint.int32 successCount)
             (goint.int32 failureCount) errors)).

(** *** Sequences of requests *)

Inductive Call :=
| CallUpdateStatus (req : UpdateStatusRequest.t)
| CallCheckStatus (req : CheckStatusRequest.t)
| CallBatchUpdateStatus (req : BatchUpdateStatusRequest.t).

(** Serving one request, keeping only its effect on the world. *)
Definition serve (c : Call) (e : Env) (w : World) : World :=
  match c with
  | CallUpdateStatus req => snd (UpdateStatus req e w)
  | CallCheckStatus req => snd (CheckStatus req e w)
  | CallBatchUpdateStatus req => snd (BatchUpdateStatus req e w)
  end.

(** Serving requests one after the other. *)
Definition serve_all (cs : list Call) (e : Env) (w : World) : World :=
  fold_left (fun w c => serve c e w) cs w.

(** The world of a server that just started on an empty table. *)
Definition boot : World := mkWorld ∅ 0 0 [].

End api.

(** ** Notions used in the statements *)

Module props.

Import ocsp api.
Local Open Scope go_scope.

(** The three values a status may take. *)
Definition recognised (st : string) : Prop :=
  st = "good" \/ st = "revoked" \/ st = "unknown".

(** The freshness window of every stored record is exactly 24 hours. *)
Definition window_24h (tbl : gmap string pgx.Row) : Prop :=
  forall serial row,
    tbl !! serial = Some row ->
    pgx.next_update row = pgx.this_update row + 24 * time.Hour.

(** [UpdateStatus] called once per item, in input order, each call
    starting from the world the previous one left, whatever its outcome:
    the list of the outcomes. *)
Fixpoint each_UpdateStatus (updates : list UpdateStatusRequest.t)
  : M (list (result status.Status UpdateStatusResponse.t)) :=
  match updates with
  | [] => ret []
  | update :: rest =>
      r <- UpdateStatus update ;;
      rs <- each_UpdateStatus rest ;;
      ret (r :: rs)
  end.

Definition succeeded {E A} (r : result E A) : bool :=
  match r with Ok _ => true | Err _ => false end.

Definition failed {E A} (r : result E A) : bool := negb (succeeded r).

(** The message of a failed call, nothing for a successful one. *)
Definition error_message {A} (r : result status.Status A) : option string :=
  match r with
  | Ok _ => None
  | Err err => Some (status.ErrorString err)
  end.

(** The status a request asks for, an empty one standing for "good". *)
Definition requested_status (req : UpdateStatusRequest.t) : string :=
  if (UpdateStatusRequest.Status req =? "")%string then "good"
  else UpdateStatusRequest.Status req.

(** The log entry every [UpdateStatus] call starts with. *)
Definition received_UpdateStatus (req : UpdateStatusRequest.t) : zap.Entry :=
  zap.mkEntry zap.InfoLevel "Received UpdateStatus request"
    [zap.String "serial" (UpdateStatusRequest.SerialNumber req);
     zap.String "status" (UpdateStatusRequest.Status req)].

(** The response [CheckStatus] builds from a row it found. *)
Definition view_of (row : pgx.Row) : CheckStatusResponse.t :=
  match pgx.revoked_at row with
  | Some revokedAt =>
      CheckStatusResponse.mk (pgx.status row) (Some (pgx.this_update row))
        (Some (pgx.next_update row)) (Some revokedAt) (pgx.revocation_reason row)
  | None =>
      CheckStatusResponse.mk (pgx.status row) (Some (pgx.this_update row))
        (Some (pgx.next_update row)) None ""
  end.

(** The response [CheckStatus] builds when the lookup gave no row, from
    two readings of the clock. *)
Definition unknown_view (thisUpdate now : time.Time) : CheckStatusResponse.t :=
  CheckStatusResponse.mk "unknown" (Some thisUpdate)
    (Some (time.Add now (24 * time.Hour))) None "".

(** Revocation columns as the specification words them: populated when
    the status is "revoked" and a timestamp came with the request (the
    timestamp as the column keeps it), absent (no timestamp, empty reason)
    otherwise. *)
Definition revocation_columns_as_specified
    (req : UpdateStatusRequest.t) (row : pgx.Row) : bool :=
  if (UpdateStatusRequest.Status req =? "revoked")%string
     && bool_decide (is_Some (UpdateStatusRequest.RevokedAt req))
  then bool_decide (pgx.revoked_at row
                    = option_map pgx.timestamp (UpdateStatusRequest.RevokedAt req))
       && (pgx.revocation_reason row =? UpdateStatusRequest.RevocationReason req)%string
  else bool_decide (pgx.revoked_at row = None)
       && (pgx.revocation_reason row =? "")%string.

(** The world [w] with [entries] added at the end of its log. *)
Definition logged (entries : list zap.Entry) (w : World) : World :=
  mkWorld (ocsp_responses w) (statements w) (clock_reads w)
          (log w ++ entries).

(** The log entry every [BatchUpdateStatus] call starts with. *)
Definition received_BatchUpdateStatus (req : BatchUpdateStatusRequest.t) : zap.Entry :=
  zap.mkEntry zap.InfoLevel "Received BatchUpdateStatus request"
    [zap.Int "count" (goint.len (BatchUpdateStatusRequest.Updates req))].

(** *** Environments and requests to try the statements on *)

(** A store that completes every statement; its clock and the process
    clock advance with every use. *)
Definition store_up : Env :=
  mkEnv (fun _ => None) (fun n => 1000 + Z.of_nat n) (fun n => 5000 + Z.of_nat n).

(** A store that completes no statement. *)
Definition store_down (cause : string) : Env :=
  mkEnv (fun _ => Some cause) (fun n => 1000 + Z.of_nat n)
        (fun n => 5000 + Z.of_nat n).

Definition revoke_ABC123 : UpdateStatusRequest.t :=
  UpdateStatusRequest.mk "ABC123" "revoked" (Some 77) "key-compromise".

Definition no_serial : UpdateStatusRequest.t :=
  UpdateStatusRequest.mk "" "good" None "".

(** Two valid items around an invalid one. *)
Definition batch_of_three : BatchUpdateStatusRequest.t :=
  BatchUpdateStatusRequest.mk
    [UpdateStatusRequest.mk "A" "good" None "";
     no_serial;
     UpdateStatusRequest.mk "B" "revoked" None ""].

(** A store that completes its first statement only. *)
Definition store_up_once (cause : string) : Env :=
  mkEnv (fun n => match n with O => None | S _ => Some cause end)
        (fun n => 1000 + Z.of_nat n) (fun n => 5000 + Z.of_nat n).

(** Three items, none of which can succeed while the store is down. *)
Definition batch_of_failures : BatchUpdateStatusRequest.t :=
  BatchUpdateStatusRequest.mk
    [no_serial;
     UpdateStatusRequest.mk "ABC123" "expired" None "";
     revoke_ABC123].

Definition some_calls : list Call :=
  [CallUpdateStatus revoke_ABC123;
   CallCheckStatus (CheckStatusRequest.mk "ABC123");
   CallBatchUpdateStatus batch_of_three].

(** *** Notions for the further properties *)

(** The two checks of [UpdateStatus] before it turns to the store, as a
    test on the request. *)
Definition passes_validation (req : UpdateStatusRequest.t) : bool :=
  negb (UpdateStatusRequest.SerialNumber req =? "")%string
  && ((requested_status req =? "good")%string
      || (requested_status req =? "revoked")%string
      || (requested_status req =? "unknown")%string).

(** Two worlds that differ at most in their logs. *)
Definition same_store (w1 w2 : World) : Prop :=
  ocsp_responses w1 = ocsp_responses w2
  /\ statements w1 = statements w2
  /\ clock_reads w1 = clock_reads w2.

(** Every row of the table satisfies [P]. *)
Definition rows_all (P : pgx.Row -> Prop) (tbl : gmap string pgx.Row) : Prop :=
  forall serial row, tbl !! serial = Some row -> P row.

(** A row whose status is one of the three values, with a revocation
    time only when that status is "revoked". *)
Definition status_kept (row : pgx.Row) : Prop :=
  recognised (pgx.status row)
  /\ (is_Some (pgx.revoked_at row) -> pgx.status row = "revoked").

(** The same for a response of [CheckStatus], where moreover the reason
    comes only with a revocation time. *)
Definition view_kept (view : CheckStatusResponse.t) : Prop :=
  recognised (CheckStatusResponse.Status view)
  /\ (is_Some (CheckStatusResponse.RevokedAt view) ->
      CheckStatusResponse.Status view = "revoked")
  /\ (CheckStatusResponse.RevokedAt view = None ->
      CheckStatusResponse.RevocationReason view = "").

(** A clock that never runs backwards. *)
Definition monotone (clock : nat -> time.Time) : Prop :=
  forall n, clock n <= clock (S n).

(** The row a request leads to when its upsert runs at [now]. *)
Definition row_of (req : UpdateStatusRequest.t) (now : time.Time) : pgx.Row :=
  pgx.mkRow (requested_status req) now (now + pgx.interval_24_hours)
    (option_map pgx.timestamp
       (if (UpdateStatusRequest.Status req =? "revoked")%string
        then UpdateStatusRequest.RevokedAt req else None))
    (UpdateStatusRequest.RevocationReason req).

End props.

Import ocsp api props.
Local Open Scope go_scope.

(** ** Running the handlers *)

Ltac run_handler :=
  unfold UpdateStatus, CheckStatus, Exec, QueryRowScan, Now, logger, bind, ret;
  cbn [fst snd ocsp_responses statements clock_reads log
       UpdateStatusRequest.SerialNumber UpdateStatusRequest.Status
       UpdateStatusRequest.RevokedAt UpdateStatusRequest.RevocationReason
       CheckStatusRequest.SerialNumber].

(** Reducing a summand to [int64] first changes nothing. *)
Lemma int64_add_l (a b : Z) :
  goint.int64 (goint.int64 a + b) = goint.int64 (a + b).
Proof.
  unfold goint.int64, goint.wrap.
  change (2 ^ (64 - 1)) with 9223372036854775808.
  change (2 ^ 64) with 18446744073709551616.
  f_equal.
  replace ((a + 9223372036854775808) mod 18446744073709551616
           - 9223372036854775808 + b + 9223372036854775808)
    with ((a + 9223372036854775808) mod 18446744073709551616 + b) by lia.
  rewrite Zplus_mod_idemp_l. f_equal. lia.
Qed.

(** What a timestamp column holds of an instant: its whole microseconds,
    rounded down, as an [int64]. *)
Lemma timestamp_floor (t : time.Time) :
  pgx.timestamp t = 1000 * goint.int64 (t / 1000).
Proof.
  assert (Hsplit : time.Time_Unix t * 1000000 + time.Time_Nanosecond t / 1000
                   = t / 1000).
  { unfold time.Time_Unix, time.Time_Nanosecond.
    pose proof (Z.div_mod t 1000000000 ltac:(lia)) as Ht.
    pose proof (Z.div_mod (t mod 1000000000) 1000 ltac:(lia)) as Hn.
    pose proof (Z.mod_pos_bound (t mod 1000000000) 1000 ltac:(lia)) as Hb.
    apply Z.div_unique with (r := (t mod 1000000000) mod 1000); lia. }
  assert (Hm : goint.int64 (pgx.microsecFromUnixEpochToY2K + pgx.encode_timestamp t)
               = goint.int64 (t / 1000)).
  { unfold pgx.encode_timestamp.
    set (sent := goint.int64 (goint.int64 (time.Time_Unix t * 1000000)
                              + time.Time_Nanosecond t / 1000)).
    replace (pgx.microsecFromUnixEpochToY2K
             + goint.int64 (sent - pgx.microsecFromUnixEpochToY2K))
      with (goint.int64 (sent - pgx.microsecFromUnixEpochToY2K)
            + pgx.microsecFromUnixEpochToY2K) by lia.
    rewrite int64_add_l.
    replace (sent - pgx.microsecFromUnixEpochToY2K + pgx.microsecFromUnixEpochToY2K)
      with (sent + 0) by lia.
    unfold sent. rewrite int64_add_l, Z.add_0_r, int64_add_l, Hsplit.
    reflexivity. }
  unfold pgx.timestamp, pgx.decode_timestamp. cbv zeta. rewrite Hm.
  unfold time.Unix.
  pose proof (Z.quot_rem' (goint.int64 (t / 1000)) 1000000) as Hqr. lia.
Qed.

(** An instant of whole microseconds within the range of the column is
    kept as it is. *)
Lemma timestamp_exact (t : time.Time) :
  t mod 1000 = 0 ->
  - 2 ^ 63 <= t / 1000 < 2 ^ 63 ->
  pgx.timestamp t = t.
Proof.
  intros Hmod Hrange. rewrite timestamp_floor.
  unfold goint.int64, goint.wrap.
  change (2 ^ (64 - 1)) with 9223372036854775808.
  change (2 ^ 64) with 18446744073709551616.
  change (2 ^ 63) with 9223372036854775808 in Hrange.
  rewrite Z.mod_small by lia.
  pose proof (Z.div_mod t 1000 ltac:(lia)) as Ht. lia.
Qed.

Lemma eqb_string_false (a b : string) : a <> b -> (a =? b)%string = false.
Proof. apply String.eqb_neq. Qed.

(** The validation of the status, as a function of the status after
    defaulting. *)
Lemma status_check_recognised (st : string) :
  recognised st ->
  negb (st =? "good")%string && negb (st =? "revoked")%string
    && negb (st =? "unknown")%string = false.
Proof. intros [-> | [-> | ->]]; reflexivity. Qed.

Lemma status_check_unrecognised (st : string) :
  ~ recognised st ->
  negb (st =? "good")%string && negb (st =? "revoked")%string
    && negb (st =? "unknown")%string = true.
Proof.
  intros H. unfold recognised in H.
  rewrite !eqb_string_false by tauto. reflexivity.
Qed.

(** What an empty serial gives. *)
Lemma UpdateStatus_serial_required (req : UpdateStatusRequest.t) (e : Env) (w : World) :
  UpdateStatusRequest.SerialNumber req = "" ->
  UpdateStatus req e w =
    (Err (status.Error codes.InvalidArgument "serial number is required"),
     logged [received_UpdateStatus req] w).
Proof.
  intros Hs. run_handler. unfold logged, received_UpdateStatus.
  rewrite Hs. reflexivity.
Qed.

(** What a status outside the three recognised values gives. *)
Lemma UpdateStatus_status_invalid (req : UpdateStatusRequest.t) (e : Env) (w : World) :
  UpdateStatusRequest.SerialNumber req <> "" ->
  ~ recognised (requested_status req) ->
  UpdateStatus req e w =
    (Err (status.Error codes.InvalidArgument
            "invalid status (must be: good, revoked, or unknown)"),
     logged [received_UpdateStatus req] w).
Proof.
  intros Hs Hst. run_handler.
  rewrite (eqb_string_false _ _ Hs).
  fold (requested_status req).
  rewrite (status_check_unrecognised _ Hst). reflexivity.
Qed.

(** The column [revoked_at] a request leads to. *)
Lemma revokedAt_parameter (req : UpdateStatusRequest.t) :
  (if (requested_status req =? "revoked")%string then
     match UpdateStatusRequest.RevokedAt req with
     | Some t => Some t
     | None => None
     end
   else None)
  = if (UpdateStatusRequest.Status req =? "revoked")%string
    then UpdateStatusRequest.RevokedAt req else None.
Proof.
  unfold requested_status.
  destruct (String.eqb_spec (UpdateStatusRequest.Status req) "") as [-> | _];
    [reflexivity |].
  destruct (UpdateStatusRequest.Status req =? "revoked")%string;
    [destruct (UpdateStatusRequest.RevokedAt req) |]; reflexivity.
Qed.

(** What a request that passes validation gives: one statement, and the
    outcome follows the store. *)
Lemma UpdateStatus_validated (req : UpdateStatusRequest.t) (e : Env) (w : World) :
  UpdateStatusRequest.SerialNumber req <> "" ->
  recognised (requested_status req) ->
  UpdateStatus req e w =
    match db_fault e (statements w) with
    | Some cause =>
        (Err (status.Error codes.Internal "failed to update status"),
         mkWorld (ocsp_responses w) (S (statements w)) (clock_reads w)
           (log w ++ [received_UpdateStatus req] ++
              [zap.mkEntry zap.ErrorLevel "Failed to update OCSP status"
                 [zap.Err cause]]))
    | None =>
        (Ok (UpdateStatusResponse.mk true "status updated successfully"),
         mkWorld
           (pgx.upsert (db_now e (statements w))
              (UpdateStatusRequest.SerialNumber req) (requested_status req)
              (option_map pgx.timestamp
                 (if (UpdateStatusRequest.Status req =? "revoked")%string
                  then UpdateStatusRequest.RevokedAt req else None))
              (UpdateStatusRequest.RevocationReason req) (ocsp_responses w))
           (S (statements w)) (clock_reads w)
           (log w ++ [received_UpdateStatus req] ++
              [zap.mkEntry zap.InfoLevel "OCSP status updated"
                 [zap.String "serial" (UpdateStatusRequest.SerialNumber req)]]))
    end.
Proof.
  intros Hs Hst. run_handler.
  rewrite (eqb_string_false _ _ Hs).
  fold (requested_status req).
  rewrite (status_check_recognised _ Hst).
  rewrite revokedAt_parameter.
  cbn. destruct (db_fault e (statements w)) as [cause |]; cbn;
    rewrite <- (app_assoc (log w)); reflexivity.
Qed.

(** Every request is in exactly one of the three cases above. *)
Lemma UpdateStatus_cases (req : UpdateStatusRequest.t) :
  UpdateStatusRequest.SerialNumber req = ""
  \/ (UpdateStatusRequest.SerialNumber req <> ""
      /\ ~ recognised (requested_status req))
  \/ (UpdateStatusRequest.SerialNumber req <> ""
      /\ recognised (requested_status req)).
Proof.
  destruct (String.eqb_spec (UpdateStatusRequest.SerialNumber req) "") as [? | Hs];
    [left; assumption | right].
  unfold recognised.
  destruct (String.eqb_spec (requested_status req) "good");
    [right; tauto |].
  destruct (String.eqb_spec (requested_status req) "revoked");
    [right; tauto |].
  destruct (String.eqb_spec (requested_status req) "unknown");
    [right; tauto |].
  left. tauto.
Qed.

(** The upsert writes the same row whether or not the key was there. *)
Lemma upsert_insert (now : time.Time) (serial st : string)
    (revokedAt : option time.Time) (reason : string) (tbl : gmap string pgx.Row) :
  pgx.upsert now serial st revokedAt reason tbl
  = <[serial := pgx.mkRow st now (now + pgx.interval_24_hours) revokedAt reason]> tbl.
Proof. unfold pgx.upsert. destruct (tbl !! serial); reflexivity. Qed.

(** A successful [UpdateStatus] passed validation, found the store
    available, and left the world of [UpdateStatus_validated]. *)
Lemma UpdateStatus_Ok_inv (req : UpdateStatusRequest.t) (e : Env) (w w' : World)
    (resp : UpdateStatusResponse.t) :
  UpdateStatus req e w = (Ok resp, w') ->
  UpdateStatusRequest.SerialNumber req <> ""
  /\ recognised (requested_status req)
  /\ db_fault e (statements w) = None
  /\ resp = UpdateStatusResponse.mk true "status updated successfully"
  /\ ocsp_responses w' =
       <[UpdateStatusRequest.SerialNumber req :=
           pgx.mkRow (requested_status req) (db_now e (statements w))
             (db_now e (statements w) + pgx.interval_24_hours)
             (option_map pgx.timestamp
                (if (UpdateStatusRequest.Status req =? "revoked")%string
                 then UpdateStatusRequest.RevokedAt req else None))
             (UpdateStatusRequest.RevocationReason req)]> (ocsp_responses w)
  /\ statements w' = S (statements w)
  /\ clock_reads w' = clock_reads w.
Proof.
  intros H.
  destruct (UpdateStatus_cases req) as [Hs | [[Hs Hst] | [Hs Hst]]].
  - rewrite (UpdateStatus_serial_required req e w Hs) in H. discriminate.
  - rewrite (UpdateStatus_status_invalid req e w Hs Hst) in H. discriminate.
  - rewrite (UpdateStatus_validated req e w Hs Hst) in H.
    destruct (db_fault e (statements w)) as [cause |]; [discriminate |].
    injection H as <- <-. cbn. rewrite upsert_insert. tauto.
Qed.

(** A failing [UpdateStatus] leaves the table as it was. *)
Lemma UpdateStatus_Err_table (req : UpdateStatusRequest.t) (e : Env) (w w' : World)
    (err : status.Status) :
  UpdateStatus req e w = (Err err, w') ->
  ocsp_responses w' = ocsp_responses w.
Proof.
  intros H.
  destruct (UpdateStatus_cases req) as [Hs | [[Hs Hst] | [Hs Hst]]].
  - rewrite (UpdateStatus_serial_required req e w Hs) in H.
    injection H as _ <-. reflexivity.
  - rewrite (UpdateStatus_status_invalid req e w Hs Hst) in H.
    injection H as _ <-. reflexivity.
  - rewrite (UpdateStatus_validated req e w Hs Hst) in H.
    destruct (db_fault e (statements w)) as [cause |]; [| discriminate].
    injection H as _ <-. reflexivity.
Qed.

(** [CheckStatus] on an empty serial. *)
Lemma CheckStatus_serial_required (req : CheckStatusRequest.t) (e : Env) (w : World) :
  CheckStatusRequest.SerialNumber req = "" ->
  CheckStatus req e w =
    (Err (status.Error codes.InvalidArgument "serial number is required"),
     logged [zap.mkEntry zap.InfoLevel "Received CheckStatus request"
               [zap.String "serial" ""]] w).
Proof.
  intros Hs. run_handler. unfold logged. rewrite Hs. reflexivity.
Qed.

(** [CheckStatus] when the lookup comes back with an error, whichever it
    is: no row, or a statement the store could not complete. *)
Lemma CheckStatus_lookup_error (req : CheckStatusRequest.t) (e : Env) (w : World) :
  CheckStatusRequest.SerialNumber req <> "" ->
  is_Some (db_fault e (statements w))
  \/ ocsp_responses w !! CheckStatusRequest.SerialNumber req = None ->
  CheckStatus req e w =
    (Ok (unknown_view (wall e (clock_reads w)) (wall e (S (clock_reads w)))),
     mkWorld (ocsp_responses w) (S (statements w)) (S (S (clock_reads w)))
       (log w ++
          [zap.mkEntry zap.InfoLevel "Received CheckStatus request"
             [zap.String "serial" (CheckStatusRequest.SerialNumber req)];
           zap.mkEntry zap.WarnLevel "Certificate status not found"
             [zap.String "serial" (CheckStatusRequest.SerialNumber req)]])).
Proof.
  intros Hs Hno. run_handler.
  rewrite (eqb_string_false _ _ Hs). cbn. unfold pgx.select, unknown_view.
  destruct (db_fault e (statements w)) as [cause |] eqn:Hf.
  - cbn. rewrite <- (app_assoc (log w)). reflexivity.
  - destruct Hno as [[c Hc] | Hrow]; [discriminate |].
    rewrite Hrow. cbn. rewrite <- (app_assoc (log w)). reflexivity.
Qed.

(** [CheckStatus] when the lookup finds a row. *)
Lemma CheckStatus_found (req : CheckStatusRequest.t) (e : Env) (w : World)
    (row : pgx.Row) :
  CheckStatusRequest.SerialNumber req <> "" ->
  db_fault e (statements w) = None ->
  ocsp_responses w !! CheckStatusRequest.SerialNumber req = Some row ->
  CheckStatus req e w =
    (Ok (view_of row),
     mkWorld (ocsp_responses w) (S (statements w)) (clock_reads w)
       (log w ++
          [zap.mkEntry zap.InfoLevel "Received CheckStatus request"
             [zap.String "serial" (CheckStatusRequest.SerialNumber req)];
           zap.mkEntry zap.InfoLevel "OCSP status checked"
             [zap.String "serial" (CheckStatusRequest.SerialNumber req);
              zap.String "status" (pgx.status row)]])).
Proof.
  intros Hs Hf Hrow. run_handler.
  rewrite (eqb_string_false _ _ Hs). cbn. unfold pgx.select, view_of.
  rewrite Hf, Hrow. cbn. rewrite <- (app_assoc (log w)).
  destruct (pgx.revoked_at row); reflexivity.
Qed.

(** ** The batch loop *)

(** The loop of [BatchUpdateStatus] calls [UpdateStatus] as
    [each_UpdateStatus] does, and its three variables count and collect
    the outcomes. *)
Lemma range_Updates_each (updates : list UpdateStatusRequest.t) :
  forall (successCount failureCount : Z) (errors : list string) (e : Env) (w : World),
    range_Updates updates successCount failureCount errors e w =
      ((Nat.iter (length (List.filter succeeded (fst (each_UpdateStatus updates e w))))
                 goint.incr successCount,
        Nat.iter (length (List.filter failed (fst (each_UpdateStatus updates e w))))
                 goint.incr failureCount,
        (errors ++ omap error_message (fst (each_UpdateStatus updates e w)))%list),
       snd (each_UpdateStatus updates e w)).
Proof.
  induction updates as [| update rest IH]; intros s f errs e w.
  - cbn. rewrite app_nil_r. reflexivity.
  - cbn [range_Updates each_UpdateStatus]. unfold bind, ret.
    destruct (UpdateStatus update e w) as [[ack | err] w1].
    + rewrite IH.
      destruct (each_UpdateStatus rest e w1) as [rs w2].
      cbn [fst snd List.filter succeeded failed negb length omap error_message].
      rewrite Nat.iter_succ_r. reflexivity.
    + rewrite IH.
      destruct (each_UpdateStatus rest e w1) as [rs w2].
      cbn [fst snd List.filter succeeded failed negb length omap error_message].
      rewrite Nat.iter_succ_r, <- app_assoc. reflexivity.
Qed.

Lemma each_UpdateStatus_length (updates : list UpdateStatusRequest.t) :
  forall (e : Env) (w : World),
    length (fst (each_UpdateStatus updates e w)) = length updates.
Proof.
  induction updates as [| update rest IH]; intros e w; [reflexivity |].
  cbn [each_UpdateStatus]. unfold bind, ret.
  destruct (UpdateStatus update e w) as [r w1].
  specialize (IH e w1). destruct (each_UpdateStatus rest e w1) as [rs w2].
  cbn in *. rewrite IH. reflexivity.
Qed.

(** The outcome of an item is that of [UpdateStatus] on it in the world
    the items before it left, whatever their outcomes were. *)
Lemma each_UpdateStatus_nth (before : list UpdateStatusRequest.t) :
  forall (update : UpdateStatusRequest.t) (after : list UpdateStatusRequest.t)
         (e : Env) (w : World),
    fst (each_UpdateStatus (before ++ update :: after) e w) !! length before
    = Some (fst (UpdateStatus update e (snd (each_UpdateStatus before e w)))).
Proof.
  induction before as [| b before IH]; intros update after e w.
  - cbn [app each_UpdateStatus length]. unfold bind, ret. cbn [fst snd].
    destruct (UpdateStatus update e w) as [r w1].
    destruct (each_UpdateStatus after e w1) as [rs w2]. reflexivity.
  - cbn [app each_UpdateStatus length]. unfold bind, ret. cbn [fst snd].
    destruct (UpdateStatus b e w) as [r w1].
    specialize (IH update after e w1).
    destruct (each_UpdateStatus (before ++ update :: after) e w1) as [rs w2].
    destruct (each_UpdateStatus before e w1) as [rs' w2']. exact IH.
Qed.

Lemma outcomes_partition {E A} (rs : list (result E A)) :
  (length (List.filter succeeded rs) + length (List.filter failed rs))%nat
  = length rs.
Proof.
  induction rs as [| [a | err] rs IH]; cbn; [reflexivity | |]; lia.
Qed.

Lemma error_messages_length {A} (rs : list (result status.Status A)) :
  length (omap error_message rs) = length (List.filter failed rs).
Proof.
  induction rs as [| [a | err] rs IH]; cbn; [reflexivity | exact IH |].
  rewrite IH. reflexivity.
Qed.

(** Counting up from [x] stays clear of the range of [int]. *)
Lemma iter_incr (n : nat) :
  forall x : Z,
    0 <= x -> x + Z.of_nat n < 2 ^ 63 ->
    Nat.iter n goint.incr x = x + Z.of_nat n.
Proof.
  induction n as [| n IH]; intros x Hx Hn.
  - cbn. lia.
  - rewrite Nat.iter_succ_r.
    assert (Hincr : goint.incr x = x + 1).
    { unfold goint.incr, goint.int, goint.wrap.
      change (2 ^ (64 - 1)) with 9223372036854775808 in *.
      change (2 ^ 64) with 18446744073709551616.
      change (2 ^ 63) with 9223372036854775808 in Hn.
      rewrite Z.mod_small by lia. lia. }
    rewrite Hincr, IH by lia. lia.
Qed.

Lemma int32_small (z : Z) : - 2 ^ 31 <= z < 2 ^ 31 -> goint.int32 z = z.
Proof.
  intros Hz. unfold goint.int32, goint.wrap.
  change (2 ^ (32 - 1)) with 2147483648.
  change (2 ^ 32) with 4294967296.
  change (2 ^ 31) with 2147483648 in Hz.
  rewrite Z.mod_small by lia. lia.
Qed.

(** [BatchUpdateStatus] in terms of the outcomes of its items. *)
Lemma BatchUpdateStatus_each (req : BatchUpdateStatusRequest.t) (e : Env) (w : World) :
  exists w',
    BatchUpdateStatus req e w =
      (Ok (BatchUpdateStatusResponse.mk
             (goint.int32
                (Nat.iter
                   (length (List.filter succeeded
                      (fst (each_UpdateStatus (BatchUpdateStatusRequest.Updates req) e
                              (logged [received_BatchUpdateStatus req] w)))))
                   goint.incr 0))
             (goint.int32
                (Nat.iter
                   (length (List.filter failed
                      (fst (each_UpdateStatus (BatchUpdateStatusRequest.Updates req) e
                              (logged [received_BatchUpdateStatus req] w)))))
                   goint.incr 0))
             (omap error_message
                (fst (each_UpdateStatus (BatchUpdateStatusRequest.Updates req) e
                        (logged [received_BatchUpdateStatus req] w))))),
       w')
    /\ ocsp_responses w' =
         ocsp_responses
           (snd (each_UpdateStatus (BatchUpdateStatusRequest.Updates req) e
                   (logged [received_BatchUpdateStatus req] w))).
Proof.
  unfold BatchUpdateStatus. unfold bind at 1 2. unfold logger at 1.
  fold (received_BatchUpdateStatus req).
  fold (logged [received_BatchUpdateStatus req] w).
  rewrite range_Updates_each. unfold bind, logger, ret. cbn.
  eexists. split; reflexivity.
Qed.

(** ** The freshness window *)

Lemma window_24h_insert (tbl : gmap string pgx.Row) (serial : string) (row : pgx.Row) :
  window_24h tbl ->
  pgx.next_update row = pgx.this_update row + 24 * time.Hour ->
  window_24h (<[serial := row]> tbl).
Proof.
  intros Htbl Hrow serial' row' Hlook.
  destruct (decide (serial = serial')) as [<- | Hne].
  - rewrite lookup_insert_eq in Hlook. injection Hlook as <-. exact Hrow.
  - rewrite lookup_insert_ne in Hlook by exact Hne. exact (Htbl _ _ Hlook).
Qed.

Lemma UpdateStatus_window (req : UpdateStatusRequest.t) (e : Env) (w : World) :
  window_24h (ocsp_responses w) ->
  window_24h (ocsp_responses (snd (UpdateStatus req e w))).
Proof.
  intros Hw.
  destruct (UpdateStatus req e w) as [[ack | err] w'] eqn:Hup; cbn [snd].
  - destruct (UpdateStatus_Ok_inv req e w w' ack Hup)
      as (_ & _ & _ & _ & -> & _ & _).
    apply window_24h_insert; [exact Hw | reflexivity].
  - rewrite (UpdateStatus_Err_table req e w w' err Hup). exact Hw.
Qed.

Lemma CheckStatus_table (req : CheckStatusRequest.t) (e : Env) (w : World) :
  ocsp_responses (snd (CheckStatus req e w)) = ocsp_responses w.
Proof.
  destruct (String.eqb_spec (CheckStatusRequest.SerialNumber req) "") as [Hs | Hs].
  - rewrite (CheckStatus_serial_required req e w Hs). reflexivity.
  - destruct (db_fault e (statements w)) as [cause |] eqn:Hf.
    + rewrite (CheckStatus_lookup_error req e w Hs)
        by (left; rewrite Hf; eexists; reflexivity).
      reflexivity.
    + destruct (ocsp_responses w !! CheckStatusRequest.SerialNumber req)
        as [row |] eqn:Hrow.
      * rewrite (CheckStatus_found req e w row Hs Hf Hrow). reflexivity.
      * rewrite (CheckStatus_lookup_error req e w Hs (or_intror Hrow)).
        reflexivity.
Qed.

Lemma each_UpdateStatus_window (updates : list UpdateStatusRequest.t) :
  forall (e : Env) (w : World),
    window_24h (ocsp_responses w) ->
    window_24h (ocsp_responses (snd (each_UpdateStatus updates e w))).
Proof.
  induction updates as [| update rest IH]; intros e w Hw; [exact Hw |].
  cbn [each_UpdateStatus]. unfold bind, ret.
  pose proof (UpdateStatus_window update e w Hw) as Hw1.
  destruct (UpdateStatus update e w) as [r w1]. cbn [snd] in Hw1.
  specialize (IH e w1 Hw1).
  destruct (each_UpdateStatus rest e w1) as [rs w2]. exact IH.
Qed.

Lemma serve_window (c : Call) (e : Env) (w : World) :
  window_24h (ocsp_responses w) ->
  window_24h (ocsp_responses (serve c e w)).
Proof.
  intros Hw. destruct c as [req | req | req]; cbn [serve].
  - apply UpdateStatus_window. exact Hw.
  - rewrite CheckStatus_table. exact Hw.
  - destruct (BatchUpdateStatus_each req e w) as (w' & Hbatch & Htbl).
    rewrite Hbatch. cbn [snd]. rewrite Htbl.
    apply each_UpdateStatus_window. exact Hw.
Qed.

Lemma serve_all_window (cs : list Call) :
  forall (e : Env) (w : World),
    window_24h (ocsp_responses w) ->
    window_24h (ocsp_responses (serve_all cs e w)).
Proof.
  induction cs as [| c cs IH]; intros e w Hw; [exact Hw |].
  cbn [serve_all fold_left]. apply IH, serve_window, Hw.
Qed.

(** ** The claims *)

Section Claims.

Variable e : Env.

(** *** A status written is the status read, while the store answers *)

(** X15. After a successful [UpdateStatus] with a non-empty serial and a
    status among good, revoked and unknown, a [CheckStatus] on the same
    serial returns exactly that status, provided the store completes the
    lookup of that [CheckStatus]. *)
Theorem CheckStatus_after_UpdateStatus
    (req : UpdateStatusRequest.t) (w w' : World) (ack : UpdateStatusResponse.t) :
  UpdateStatusRequest.SerialNumber req <> "" ->
  recognised (UpdateStatusRequest.Status req) ->
  UpdateStatus req e w = (Ok ack, w') ->
  db_fault e (statements w') = None ->
  exists view w'',
    CheckStatus (CheckStatusRequest.mk (UpdateStatusRequest.SerialNumber req)) e w'
      = (Ok view, w'')
    /\ CheckStatusResponse.Status view = UpdateStatusRequest.Status req.
Proof.
  intros Hs Hst Hup Hdb.
  destruct (UpdateStatus_Ok_inv req e w w' ack Hup)
    as (_ & _ & _ & _ & Htbl & _ & _).
  assert (Hreq : requested_status req = UpdateStatusRequest.Status req).
  { unfold requested_status. destruct Hst as [-> | [-> | ->]]; reflexivity. }
  eexists _, _. split.
  - apply CheckStatus_found; cbn [CheckStatusRequest.SerialNumber];
      [exact Hs | exact Hdb |].
    rewrite Htbl. apply lookup_insert_eq.
  - unfold view_of. cbn [pgx.revoked_at pgx.status].
    destruct (option_map pgx.timestamp
                (if (UpdateStatusRequest.Status req =? "revoked")%string
                 then UpdateStatusRequest.RevokedAt req else None));
      cbn; exact Hreq.
Qed.

(** *** C3: no record reads as unknown *)

(** C3. For a non-empty serial with no stored record, [CheckStatus]
    succeeds with status "unknown", thisUpdate the clock's reading,
    nextUpdate the clock's (next) reading plus 24 hours, and no revocation
    fields; the table is left as it was. *)
Theorem CheckStatus_no_record (req : CheckStatusRequest.t) (w : World) :
  CheckStatusRequest.SerialNumber req <> "" ->
  ocsp_responses w !! CheckStatusRequest.SerialNumber req = None ->
  exists w',
    CheckStatus req e w =
      (Ok (CheckStatusResponse.mk "unknown"
             (Some (wall e (clock_reads w)))
             (Some (wall e (S (clock_reads w)) + 24 * time.Hour))
             None ""), w')
    /\ ocsp_responses w' = ocsp_responses w.
Proof.
  intros Hs Hrow.
  rewrite (CheckStatus_lookup_error req e w Hs (or_intror Hrow)).
  eexists. split; reflexivity.
Qed.

(** *** C4: which revocation columns are written *)

(** C4 (as amended). A successful [UpdateStatus] stores [revoked_at] only
    when the status is "revoked" and a revocation timestamp was supplied
    (the timestamp in whole microseconds, rounded down, as the column keeps
    it), and as absent otherwise; [revocation_reason] is stored exactly as
    the request gives it, whatever the status. *)
Theorem UpdateStatus_revocation_columns
    (req : UpdateStatusRequest.t) (w w' : World) (ack : UpdateStatusResponse.t) :
  UpdateStatus req e w = (Ok ack, w') ->
  exists row,
    ocsp_responses w' !! UpdateStatusRequest.SerialNumber req = Some row
    /\ pgx.revoked_at row =
         option_map (fun t : time.Time => 1000 * goint.int64 (t / 1000))
           (if (UpdateStatusRequest.Status req =? "revoked")%string
            then UpdateStatusRequest.RevokedAt req else None)
    /\ (is_Some (pgx.revoked_at row)
        <-> UpdateStatusRequest.Status req = "revoked"
            /\ is_Some (UpdateStatusRequest.RevokedAt req))
    /\ pgx.revocation_reason row = UpdateStatusRequest.RevocationReason req.
Proof.
  intros Hup.
  destruct (UpdateStatus_Ok_inv req e w w' ack Hup)
    as (_ & _ & _ & _ & Htbl & _ & _).
  exists (row_of req (db_now e (statements w))).
  split; [rewrite Htbl; apply lookup_insert_eq |].
  clear Htbl. unfold row_of. cbn [pgx.revoked_at pgx.revocation_reason].
  split; [| split; [| reflexivity]].
  - destruct (if (UpdateStatusRequest.Status req =? "revoked")%string
              then UpdateStatusRequest.RevokedAt req else None) as [t |];
      cbn [option_map]; [rewrite timestamp_floor |]; reflexivity.
  - destruct (String.eqb_spec (UpdateStatusRequest.Status req) "revoked")
      as [Hst | Hst].
    + destruct (UpdateStatusRequest.RevokedAt req) as [t |]; cbn [option_map].
      * split; [intros _; split; [exact Hst | eexists; reflexivity]
               | intros _; eexists; reflexivity].
      * split; [intros [t Ht]; discriminate | intros [_ [t Ht]]; discriminate].
    + cbn [option_map]. split; [intros [t Ht]; discriminate | tauto].
Qed.

(** *** C6: an empty serial is rejected before the store *)

(** C6. [UpdateStatus] with an empty serial fails with [InvalidArgument]
    and performs no store write: no statement is sent to the pool and the
    table is the one before the call. *)
Theorem UpdateStatus_empty_serial_rejected
    (req : UpdateStatusRequest.t) (w : World) :
  UpdateStatusRequest.SerialNumber req = "" ->
  exists w',
    UpdateStatus req e w =
      (Err (status.Error codes.InvalidArgument "serial number is required"), w')
    /\ ocsp_responses w' = ocsp_responses w
    /\ statements w' = statements w.
Proof.
  intros Hs. rewrite (UpdateStatus_serial_required req e w Hs).
  eexists. split; [reflexivity | split; reflexivity].
Qed.

(** *** C7: an unrecognised status is rejected before the store *)

(** C7. [UpdateStatus] with a non-empty status other than good, revoked
    and unknown fails with [InvalidArgument], and no store access is
    attempted: no statement is sent and the table is unchanged. *)
Theorem UpdateStatus_unrecognised_status_rejected
    (req : UpdateStatusRequest.t) (w : World) :
  UpdateStatusRequest.Status req <> "" ->
  ~ recognised (UpdateStatusRequest.Status req) ->
  exists msg w',
    UpdateStatus req e w = (Err (status.Error codes.InvalidArgument msg), w')
    /\ ocsp_responses w' = ocsp_responses w
    /\ statements w' = statements w.
Proof.
  intros Hne Hst.
  destruct (String.eqb_spec (UpdateStatusRequest.SerialNumber req) "") as [Hs | Hs].
  - rewrite (UpdateStatus_serial_required req e w Hs).
    eexists _, _. split; [reflexivity | split; reflexivity].
  - assert (Hreq : requested_status req = UpdateStatusRequest.Status req).
    { unfold requested_status. rewrite (eqb_string_false _ _ Hne). reflexivity. }
    rewrite (UpdateStatus_status_invalid req e w Hs) by (rewrite Hreq; exact Hst).
    eexists _, _. split; [reflexivity | split; reflexivity].
Qed.

(** *** C8: an omitted status means good *)

(** C8. For every serial and revocation arguments, [UpdateStatus] with an
    empty status gives the same result and the same store (table and
    statements sent) as the same call with status "good". *)
Theorem UpdateStatus_omitted_status_is_good
    (serial : string) (revokedAt : option time.Time) (reason : string) (w : World) :
  fst (UpdateStatus (UpdateStatusRequest.mk serial "" revokedAt reason) e w)
    = fst (UpdateStatus (UpdateStatusRequest.mk serial "good" revokedAt reason) e w)
  /\ ocsp_responses
       (snd (UpdateStatus (UpdateStatusRequest.mk serial "" revokedAt reason) e w))
     = ocsp_responses
         (snd (UpdateStatus (UpdateStatusRequest.mk serial "good" revokedAt reason) e w))
  /\ statements
       (snd (UpdateStatus (UpdateStatusRequest.mk serial "" revokedAt reason) e w))
     = statements
         (snd (UpdateStatus (UpdateStatusRequest.mk serial "good" revokedAt reason) e w)).
Proof.
  destruct (String.eqb_spec serial "") as [Hs | Hs].
  - rewrite !UpdateStatus_serial_required by exact Hs. cbn. tauto.
  - rewrite !UpdateStatus_validated by (try exact Hs; left; reflexivity).
    cbn. unfold requested_status. cbn.
    destruct (db_fault e (statements w)); cbn; tauto.
Qed.

(** *** C5: what a batch reports *)

(** C5. [BatchUpdateStatus] calls [UpdateStatus] on every item in input
    order, each whatever the outcome of the items before it, and errors
    holds the messages of exactly the failed items in order, one for each.
    successCount and failureCount are the numbers of items that succeeded
    and failed, as far as an [int32] holds them: with both numbers below
    2^31 they add up to the number of items and failureCount is the length
    of errors. *)
Theorem BatchUpdateStatus_counts (req : BatchUpdateStatusRequest.t) (w : World) :
  exists resp w' outcomes w1,
    BatchUpdateStatus req e w = (Ok resp, w')
    /\ each_UpdateStatus (BatchUpdateStatusRequest.Updates req) e
         (logged [received_BatchUpdateStatus req] w) = (outcomes, w1)
    /\ ocsp_responses w' = ocsp_responses w1
    /\ length outcomes = length (BatchUpdateStatusRequest.Updates req)
    /\ (forall before update after,
          BatchUpdateStatusRequest.Updates req = (before ++ update :: after)%list ->
          outcomes !! length before =
            Some (fst (UpdateStatus update e
                         (snd (each_UpdateStatus before e
                                 (logged [received_BatchUpdateStatus req] w))))))
    /\ BatchUpdateStatusResponse.Errors resp = omap error_message outcomes
    /\ length (BatchUpdateStatusResponse.Errors resp)
       = length (List.filter failed outcomes)
    /\ (length (List.filter succeeded outcomes)
        + length (List.filter failed outcomes))%nat
       = length (BatchUpdateStatusRequest.Updates req)
    /\ (Z.of_nat (length (List.filter succeeded outcomes)) < 2 ^ 31 ->
        Z.of_nat (length (List.filter failed outcomes)) < 2 ^ 31 ->
        BatchUpdateStatusResponse.SuccessCount resp
          = Z.of_nat (length (List.filter succeeded outcomes))
        /\ BatchUpdateStatusResponse.FailureCount resp
           = Z.of_nat (length (List.filter failed outcomes))
        /\ BatchUpdateStatusResponse.SuccessCount resp
           + BatchUpdateStatusResponse.FailureCount resp
           = goint.len (BatchUpdateStatusRequest.Updates req)
        /\ goint.len (BatchUpdateStatusResponse.Errors resp)
           = BatchUpdateStatusResponse.FailureCount resp).
Proof.
  unfold goint.len.
  destruct (BatchUpdateStatus_each req e w) as (w' & Hbatch & Htbl).
  pose proof (each_UpdateStatus_length (BatchUpdateStatusRequest.Updates req) e
                (logged [received_BatchUpdateStatus req] w)) as Hall.
  pose proof (each_UpdateStatus_nth) as Hnth.
  destruct (each_UpdateStatus (BatchUpdateStatusRequest.Updates req) e
              (logged [received_BatchUpdateStatus req] w)) as [outcomes w1] eqn:Heach.
  cbn [fst snd] in *.
  pose proof (outcomes_partition outcomes) as Hpart.
  pose proof (error_messages_length outcomes) as Herrs.
  exists (BatchUpdateStatusResponse.mk
            (goint.int32 (Nat.iter (length (List.filter succeeded outcomes)) goint.incr 0))
            (goint.int32 (Nat.iter (length (List.filter failed outcomes)) goint.incr 0))
            (omap error_message outcomes)), w', outcomes, w1.
  split; [exact Hbatch |].
  cbn [BatchUpdateStatusResponse.SuccessCount BatchUpdateStatusResponse.FailureCount
       BatchUpdateStatusResponse.Errors].
  split; [reflexivity |]. split; [exact Htbl |].
  split; [exact Hall |]. split.
  { intros before update after Hsplit.
    specialize (Hnth before update after e (logged [received_BatchUpdateStatus req] w)).
    rewrite <- Hsplit, Heach in Hnth. exact Hnth. }
  split; [reflexivity |]. split; [exact Herrs |].
  split; [rewrite Hpart; exact Hall |].
  change (2 ^ 31) with 2147483648. intros Hsucc Hfail.
  rewrite !iter_incr by (change (2 ^ 63) with 9223372036854775808; lia).
  rewrite !int32_small by (change (2 ^ 31) with 2147483648; lia).
  rewrite Herrs. repeat split; lia.
Qed.

(** *** C9: the freshness window *)

(** C9. Whatever requests have been served, from a table whose records
    all have nextUpdate = thisUpdate + 24 hours: every record of the table
    still has, and the record a successful [UpdateStatus] writes next has
    thisUpdate the time of the statement and nextUpdate exactly 24 hours
    later. *)
Theorem nextUpdate_24h_after_thisUpdate (cs : list Call) (w : World) :
  window_24h (ocsp_responses w) ->
  window_24h (ocsp_responses (serve_all cs e w))
  /\ forall req ack w',
       UpdateStatus req e (serve_all cs e w) = (Ok ack, w') ->
       window_24h (ocsp_responses w')
       /\ exists row,
            ocsp_responses w' !! UpdateStatusRequest.SerialNumber req = Some row
            /\ pgx.this_update row = db_now e (statements (serve_all cs e w))
            /\ pgx.next_update row = pgx.this_update row + 24 * time.Hour.
Proof.
  intros Hw. pose proof (serve_all_window cs e w Hw) as Hafter.
  split; [exact Hafter |].
  intros req ack w' Hup. split.
  - pose proof (UpdateStatus_window req e _ Hafter) as H.
    rewrite Hup in H. exact H.
  - destruct (UpdateStatus_Ok_inv req e _ w' ack Hup)
      as (_ & _ & _ & _ & -> & _ & _).
    eexists. split; [apply lookup_insert_eq |]. split; reflexivity.
Qed.

End Claims.

(** ** The claims on concrete requests *)

Lemma window_24h_empty : window_24h ∅.
Proof. intros serial row H. rewrite lookup_empty in H. discriminate. Qed.

Lemma CheckStatus_after_UpdateStatus_witness :
  exists view w'',
    CheckStatus (CheckStatusRequest.mk "ABC123") store_up
                (snd (UpdateStatus revoke_ABC123 store_up boot))
      = (Ok view, w'')
    /\ CheckStatusResponse.Status view = "revoked".
Proof.
  apply (CheckStatus_after_UpdateStatus store_up revoke_ABC123 boot
           (snd (UpdateStatus revoke_ABC123 store_up boot))
           (UpdateStatusResponse.mk true "status updated successfully")).
  - discriminate.
  - right. left. reflexivity.
  - reflexivity.
  - reflexivity.
Defined.

Lemma CheckStatus_no_record_witness :
  exists w',
    CheckStatus (CheckStatusRequest.mk "FFEE01") store_up boot =
      (Ok (CheckStatusResponse.mk "unknown" (Some 5000)
             (Some (5001 + 24 * time.Hour)) None ""), w')
    /\ ocsp_responses w' = ocsp_responses boot.
Proof.
  apply (CheckStatus_no_record store_up (CheckStatusRequest.mk "FFEE01") boot).
  - discriminate.
  - reflexivity.
Defined.

Lemma UpdateStatus_revocation_columns_witness :
  exists row,
    ocsp_responses (snd (UpdateStatus revoke_ABC123 store_up boot)) !! "ABC123"
      = Some row
    /\ pgx.revoked_at row = Some 0
    /\ (is_Some (pgx.revoked_at row)
        <-> "revoked" = "revoked" /\ is_Some (Some 77))
    /\ pgx.revocation_reason row = "key-compromise".
Proof.
  apply (UpdateStatus_revocation_columns store_up revoke_ABC123 boot
           (snd (UpdateStatus revoke_ABC123 store_up boot))
           (UpdateStatusResponse.mk true "status updated successfully")).
  reflexivity.
Defined.

(** C4, the claim as it stands, on a request that sets a certificate to
    "good" and carries a reason: the reason is stored with the record, so
    the revocation columns are not both absent. *)
Lemma UpdateStatus_good_keeps_reason :
  exists row,
    ocsp_responses
      (snd (UpdateStatus (UpdateStatusRequest.mk "A1" "good" None "superseded")
              store_up boot)) !! "A1" = Some row
    /\ pgx.status row = "good"
    /\ pgx.revocation_reason row = "superseded"
    /\ revocation_columns_as_specified
         (UpdateStatusRequest.mk "A1" "good" None "superseded") row = false.
Proof.
  eexists. split; [vm_compute; reflexivity |].
  split; [reflexivity |]. split; reflexivity.
Qed.

Lemma UpdateStatus_empty_serial_rejected_witness :
  exists w',
    UpdateStatus no_serial store_up boot =
      (Err (status.Error codes.InvalidArgument "serial number is required"), w')
    /\ ocsp_responses w' = ocsp_responses boot
    /\ statements w' = statements boot.
Proof.
  apply (UpdateStatus_empty_serial_rejected store_up no_serial boot).
  reflexivity.
Defined.

Lemma UpdateStatus_unrecognised_status_rejected_witness :
  exists msg w',
    UpdateStatus (UpdateStatusRequest.mk "ABC123" "expired" None "") store_up boot
      = (Err (status.Error codes.InvalidArgument msg), w')
    /\ ocsp_responses w' = ocsp_responses boot
    /\ statements w' = statements boot.
Proof.
  apply (UpdateStatus_unrecognised_status_rejected store_up
           (UpdateStatusRequest.mk "ABC123" "expired" None "") boot).
  - discriminate.
  - intros [H | [H | H]]; discriminate H.
Defined.

Lemma BatchUpdateStatus_counts_witness :
  exists resp w',
    BatchUpdateStatus batch_of_three store_up boot = (Ok resp, w')
    /\ BatchUpdateStatusResponse.SuccessCount resp = 2
    /\ BatchUpdateStatusResponse.FailureCount resp = 1
    /\ BatchUpdateStatusResponse.SuccessCount resp
       + BatchUpdateStatusResponse.FailureCount resp
       = goint.len (BatchUpdateStatusRequest.Updates batch_of_three)
    /\ BatchUpdateStatusResponse.Errors resp =
         ["rpc error: code = InvalidArgument desc = serial number is required"]
    /\ goint.len (BatchUpdateStatusResponse.Errors resp)
       = BatchUpdateStatusResponse.FailureCount resp.
Proof.
  destruct (BatchUpdateStatus_counts store_up batch_of_three boot)
    as (resp & w' & outcomes & w1 & Hbatch & Heach & _ & _ & _ & Herrs & _ & _
        & Hcounts).
  vm_compute in Heach. injection Heach as <- _.
  destruct Hcounts as (Hs & Hf & Hsum & Hlen); [reflexivity | reflexivity |].
  exists resp, w'. split; [exact Hbatch |].
  split; [exact Hs |]. split; [exact Hf |]. split; [exact Hsum |].
  split; [exact Herrs | exact Hlen].
Defined.

Lemma nextUpdate_24h_after_thisUpdate_witness :
  window_24h (ocsp_responses (serve_all some_calls store_up boot))
  /\ forall req ack w',
       UpdateStatus req store_up (serve_all some_calls store_up boot) = (Ok ack, w') ->
       window_24h (ocsp_responses w')
       /\ exists row,
            ocsp_responses w' !! UpdateStatusRequest.SerialNumber req = Some row
            /\ pgx.this_update row
               = db_now store_up (statements (serve_all some_calls store_up boot))
            /\ pgx.next_update row = pgx.this_update row + 24 * time.Hour.
Proof.
  apply (nextUpdate_24h_after_thisUpdate store_up some_calls boot).
  exact window_24h_empty.
Defined.

(** *** C2: what a caller sees when the store fails *)

(** C2, on [CheckStatus]: with the certificate ABC123 stored as revoked
    (its revocation time of 77 ns kept as 0, in whole microseconds) and a
    store that cannot complete the lookup, the caller receives a
    successful response with status "unknown", not an error. *)
Theorem CheckStatus_store_failure_reads_unknown :
  ocsp_responses (snd (UpdateStatus revoke_ABC123 store_up boot)) !! "ABC123"
    = Some (pgx.mkRow "revoked" 1000 (1000 + 24 * time.Hour) (Some 0)
              "key-compromise")
  /\ fst (CheckStatus (CheckStatusRequest.mk "ABC123")
            (store_down "connection refused")
            (snd (UpdateStatus revoke_ABC123 store_up boot)))
     = Ok (CheckStatusResponse.mk "unknown" (Some 5000)
             (Some (5001 + 24 * time.Hour)) None "").
Proof.
  split.
  - vm_compute. reflexivity.
  - rewrite CheckStatus_lookup_error.
    + reflexivity.
    + discriminate.
    + left. eexists. reflexivity.
Qed.

(** ** Further properties of the handlers *)

(** X1. When the store cannot complete the upsert of a request that
    passed validation, [UpdateStatus] fails with [Internal] and the fixed
    message "failed to update status", whatever the cause; the cause goes
    to the log only, and the table is left as it was. *)
Theorem UpdateStatus_store_failure
    (e : Env) (req : UpdateStatusRequest.t) (w : World) (cause : string) :
  UpdateStatusRequest.SerialNumber req <> "" ->
  recognised (requested_status req) ->
  db_fault e (statements w) = Some cause ->
  exists w',
    UpdateStatus req e w =
      (Err (status.Error codes.Internal "failed to update status"), w')
    /\ ocsp_responses w' = ocsp_responses w
    /\ last (log w') =
         Some (zap.mkEntry zap.ErrorLevel "Failed to update OCSP status"
                 [zap.Err cause]).
Proof.
  intros Hs Hst Hf.
  rewrite (UpdateStatus_validated req e w Hs Hst), Hf.
  eexists. split; [reflexivity |]. split; [reflexivity |].
  cbn [log]. rewrite app_assoc. apply last_snoc.
Qed.

Lemma UpdateStatus_store_failure_witness :
  exists w',
    UpdateStatus revoke_ABC123 (store_down "connection refused") boot =
      (Err (status.Error codes.Internal "failed to update status"), w')
    /\ ocsp_responses w' = ocsp_responses boot
    /\ last (log w') =
         Some (zap.mkEntry zap.ErrorLevel "Failed to update OCSP status"
                 [zap.Err "connection refused"]).
Proof.
  apply (UpdateStatus_store_failure (store_down "connection refused")
           revoke_ABC123 boot "connection refused").
  - discriminate.
  - right. left. reflexivity.
  - reflexivity.
Defined.

(** X2. [CheckStatus] with an empty serial fails with [InvalidArgument]
    before any statement is sent to the store. *)
Theorem CheckStatus_empty_serial_rejected
    (e : Env) (req : CheckStatusRequest.t) (w : World) :
  CheckStatusRequest.SerialNumber req = "" ->
  exists w',
    CheckStatus req e w =
      (Err (status.Error codes.InvalidArgument "serial number is required"), w')
    /\ ocsp_responses w' = ocsp_responses w
    /\ statements w' = statements w.
Proof.
  intros Hs. rewrite (CheckStatus_serial_required req e w Hs).
  eexists. split; [reflexivity | split; reflexivity].
Qed.

Lemma CheckStatus_empty_serial_rejected_witness :
  exists w',
    CheckStatus (CheckStatusRequest.mk "") store_up boot =
      (Err (status.Error codes.InvalidArgument "serial number is required"), w')
    /\ ocsp_responses w' = ocsp_responses boot
    /\ statements w' = statements boot.
Proof.
  apply (CheckStatus_empty_serial_rejected store_up (CheckStatusRequest.mk "") boot).
  reflexivity.
Defined.

(** X3. A successful [UpdateStatus] replaces the record of its serial by
    the row of the request (its status after defaulting, the time of the
    statement and 24 hours later, its revocation columns) and leaves the
    record of every other serial as it was. *)
Theorem UpdateStatus_other_serials_untouched
    (e : Env) (req : UpdateStatusRequest.t) (w w' : World)
    (ack : UpdateStatusResponse.t) :
  UpdateStatus req e w = (Ok ack, w') ->
  ocsp_responses w' !! UpdateStatusRequest.SerialNumber req
    = Some (row_of req (db_now e (statements w)))
  /\ forall other,
       other <> UpdateStatusRequest.SerialNumber req ->
       ocsp_responses w' !! other = ocsp_responses w !! other.
Proof.
  intros Hup.
  destruct (UpdateStatus_Ok_inv req e w w' ack Hup)
    as (_ & _ & _ & _ & -> & _ & _).
  split; [apply lookup_insert_eq |].
  intros other Hne. apply lookup_insert_ne. congruence.
Qed.

Lemma UpdateStatus_other_serials_untouched_witness :
  ocsp_responses
    (snd (UpdateStatus (UpdateStatusRequest.mk "B" "" None "") store_up
            (snd (UpdateStatus revoke_ABC123 store_up boot)))) !! "B"
    = Some (pgx.mkRow "good" 1001 (1001 + 24 * time.Hour) None "")
  /\ forall other,
       other <> "B" ->
       ocsp_responses
         (snd (UpdateStatus (UpdateStatusRequest.mk "B" "" None "") store_up
                 (snd (UpdateStatus revoke_ABC123 store_up boot)))) !! other
       = ocsp_responses (snd (UpdateStatus revoke_ABC123 store_up boot)) !! other.
Proof.
  apply (UpdateStatus_other_serials_untouched store_up
           (UpdateStatusRequest.mk "B" "" None "")
           (snd (UpdateStatus revoke_ABC123 store_up boot))
           (snd (UpdateStatus (UpdateStatusRequest.mk "B" "" None "") store_up
                   (snd (UpdateStatus revoke_ABC123 store_up boot))))
           (UpdateStatusResponse.mk true "status updated successfully")).
  reflexivity.
Defined.

(** X4. After a successful [UpdateStatus] that revokes a certificate with
    a revocation timestamp, a [CheckStatus] on the same serial whose
    lookup the store completes returns status "revoked" with the reason
    given and that timestamp in whole microseconds, rounded down, as the
    column keeps it: the timestamp itself when it is a whole number of
    microseconds within the range of the column. *)
Theorem CheckStatus_returns_revocation
    (e : Env) (req : UpdateStatusRequest.t) (w w' : World)
    (ack : UpdateStatusResponse.t) (revokedAt : time.Time) :
  UpdateStatusRequest.Status req = "revoked" ->
  UpdateStatusRequest.RevokedAt req = Some revokedAt ->
  UpdateStatus req e w = (Ok ack, w') ->
  db_fault e (statements w') = None ->
  (exists w'',
     CheckStatus (CheckStatusRequest.mk (UpdateStatusRequest.SerialNumber req)) e w'
     = (Ok (CheckStatusResponse.mk "revoked"
              (Some (db_now e (statements w)))
              (Some (db_now e (statements w) + 24 * time.Hour))
              (Some (1000 * goint.int64 (revokedAt / 1000)))
              (UpdateStatusRequest.RevocationReason req)), w''))
  /\ (revokedAt mod 1000 = 0 ->
      - 2 ^ 63 <= revokedAt / 1000 < 2 ^ 63 ->
      1000 * goint.int64 (revokedAt / 1000) = revokedAt).
Proof.
  intros Hst Hat Hup Hdb.
  destruct (UpdateStatus_Ok_inv req e w w' ack Hup)
    as (Hs & _ & _ & _ & Htbl & _ & _).
  split.
  - eexists.
    rewrite (CheckStatus_found
               (CheckStatusRequest.mk (UpdateStatusRequest.SerialNumber req))
               e w' _ Hs Hdb)
      by (rewrite Htbl; apply lookup_insert_eq).
    unfold view_of, requested_status. cbn [pgx.revoked_at pgx.status
      pgx.this_update pgx.next_update pgx.revocation_reason].
    rewrite Hst, Hat. cbn [option_map String.eqb Ascii.eqb Bool.eqb].
    rewrite timestamp_floor. reflexivity.
  - intros Hmod Hrange. rewrite <- timestamp_floor.
    apply timestamp_exact; assumption.
Qed.

Lemma CheckStatus_returns_revocation_witness :
  (exists w'',
     CheckStatus (CheckStatusRequest.mk "ABC123") store_up
       (snd (UpdateStatus
               (UpdateStatusRequest.mk "ABC123" "revoked"
                  (Some 1700000000123456000) "key-compromise")
               store_up boot))
     = (Ok (CheckStatusResponse.mk "revoked" (Some 1000)
              (Some (1000 + 24 * time.Hour)) (Some 1700000000123456000)
              "key-compromise"), w''))
  /\ (1700000000123456000 mod 1000 = 0 ->
      - 2 ^ 63 <= 1700000000123456000 / 1000 < 2 ^ 63 ->
      1000 * goint.int64 (1700000000123456000 / 1000) = 1700000000123456000).
Proof.
  apply (CheckStatus_returns_revocation store_up
           (UpdateStatusRequest.mk "ABC123" "revoked"
              (Some 1700000000123456000) "key-compromise")
           boot
           (snd (UpdateStatus
                   (UpdateStatusRequest.mk "ABC123" "revoked"
                      (Some 1700000000123456000) "key-compromise")
                   store_up boot))
           (UpdateStatusResponse.mk true "status updated successfully")
           1700000000123456000).
  - reflexivity.
  - reflexivity.
  - reflexivity.
  - reflexivity.
Defined.

(** *** Validation and the outcomes of [UpdateStatus] *)

Lemma passes_validation_spec (req : UpdateStatusRequest.t) :
  passes_validation req = true
  <-> UpdateStatusRequest.SerialNumber req <> ""
      /\ recognised (requested_status req).
Proof.
  unfold passes_validation, recognised.
  rewrite andb_true_iff, !orb_true_iff, negb_true_iff.
  rewrite String.eqb_neq, !String.eqb_eq. tauto.
Qed.

Lemma fails_validation_spec (req : UpdateStatusRequest.t) :
  passes_validation req = false
  <-> UpdateStatusRequest.SerialNumber req = ""
      \/ ~ recognised (requested_status req).
Proof.
  rewrite <- not_true_iff_false, passes_validation_spec.
  destruct (UpdateStatus_cases req) as [Hs | [[Hs Hst] | [Hs Hst]]]; tauto.
Qed.

(** What [UpdateStatus] does to the store, the clock and the result, by
    validation and the state of the store. *)
Lemma UpdateStatus_effects (req : UpdateStatusRequest.t) (e : Env) (w : World) :
  if passes_validation req then
    match db_fault e (statements w) with
    | Some _ =>
        fst (UpdateStatus req e w)
          = Err (status.Error codes.Internal "failed to update status")
        /\ ocsp_responses (snd (UpdateStatus req e w)) = ocsp_responses w
    | None =>
        fst (UpdateStatus req e w)
          = Ok (UpdateStatusResponse.mk true "status updated successfully")
        /\ ocsp_responses (snd (UpdateStatus req e w))
           = <[UpdateStatusRequest.SerialNumber req :=
                 row_of req (db_now e (statements w))]> (ocsp_responses w)
    end
    /\ statements (snd (UpdateStatus req e w)) = S (statements w)
    /\ clock_reads (snd (UpdateStatus req e w)) = clock_reads w
  else
    (exists msg,
       fst (UpdateStatus req e w) = Err (status.Error codes.InvalidArgument msg))
    /\ ocsp_responses (snd (UpdateStatus req e w)) = ocsp_responses w
    /\ statements (snd (UpdateStatus req e w)) = statements w
    /\ clock_reads (snd (UpdateStatus req e w)) = clock_reads w.
Proof.
  destruct (passes_validation req) eqn:Hv.
  - apply passes_validation_spec in Hv as [Hs Hst].
    rewrite (UpdateStatus_validated req e w Hs Hst).
    destruct (db_fault e (statements w)) as [cause |]; cbn;
      rewrite ?upsert_insert; tauto.
  - apply fails_validation_spec in Hv.
    destruct (UpdateStatus_cases req) as [Hs | [[Hs Hst] | [Hs Hst]]].
    + rewrite (UpdateStatus_serial_required req e w Hs). cbn. eauto.
    + rewrite (UpdateStatus_status_invalid req e w Hs Hst). cbn. eauto.
    + tauto.
Qed.

(** X5. [UpdateStatus] succeeds exactly when the request has a serial,
    its status (after defaulting) is one of the three values, and the store
    completes the statement. *)
Theorem UpdateStatus_succeeds_iff
    (e : Env) (req : UpdateStatusRequest.t) (w : World) :
  (exists ack, fst (UpdateStatus req e w) = Ok ack)
  <-> (UpdateStatusRequest.SerialNumber req <> ""
       /\ recognised (requested_status req)
       /\ db_fault e (statements w) = None).
Proof.
  pose proof (UpdateStatus_effects req e w) as H.
  destruct (passes_validation req) eqn:Hv.
  - apply passes_validation_spec in Hv.
    destruct (db_fault e (statements w)) as [cause |];
      destruct H as [[Hr _] _]; rewrite Hr; split.
    + intros [ack Hack]. discriminate.
    + intros (_ & _ & Hf). discriminate.
    + tauto.
    + intros _. eexists. reflexivity.
  - apply fails_validation_spec in Hv.
    destruct H as [[msg Hr] _]. rewrite Hr. split.
    + intros [ack Hack]. discriminate.
    + tauto.
Qed.

(** X6. A failing [UpdateStatus] returns one of three fixed errors,
    whatever the cause the store gave, and leaves the table as it was. *)
Theorem UpdateStatus_errors_fixed
    (e : Env) (req : UpdateStatusRequest.t) (w w' : World) (err : status.Status) :
  UpdateStatus req e w = (Err err, w') ->
  In err
     [status.Error codes.InvalidArgument "serial number is required";
      status.Error codes.InvalidArgument
        "invalid status (must be: good, revoked, or unknown)";
      status.Error codes.Internal "failed to update status"]
  /\ ocsp_responses w' = ocsp_responses w.
Proof.
  intros H. split; [| exact (UpdateStatus_Err_table req e w w' err H)].
  destruct (UpdateStatus_cases req) as [Hs | [[Hs Hst] | [Hs Hst]]].
  - rewrite (UpdateStatus_serial_required req e w Hs) in H.
    injection H as <- _. cbn. tauto.
  - rewrite (UpdateStatus_status_invalid req e w Hs Hst) in H.
    injection H as <- _. cbn. tauto.
  - rewrite (UpdateStatus_validated req e w Hs Hst) in H.
    destruct (db_fault e (statements w)); [| discriminate].
    injection H as <- _. cbn. tauto.
Qed.

Lemma UpdateStatus_errors_fixed_witness :
  In (status.Error codes.Internal "failed to update status")
     [status.Error codes.InvalidArgument "serial number is required";
      status.Error codes.InvalidArgument
        "invalid status (must be: good, revoked, or unknown)";
      status.Error codes.Internal "failed to update status"]
  /\ ocsp_responses
       (snd (UpdateStatus revoke_ABC123 (store_down "deadline exceeded") boot))
     = ocsp_responses boot.
Proof.
  apply (UpdateStatus_errors_fixed (store_down "deadline exceeded")
           revoke_ABC123 boot).
  reflexivity.
Defined.

(** *** [CheckStatus] *)

(** X7. [CheckStatus] never changes the table; it sends one statement to
    the store when the serial is not empty and none when it is. *)
Theorem CheckStatus_read_only
    (e : Env) (req : CheckStatusRequest.t) (w : World) :
  ocsp_responses (snd (CheckStatus req e w)) = ocsp_responses w
  /\ statements (snd (CheckStatus req e w))
     = if (CheckStatusRequest.SerialNumber req =? "")%string
       then statements w else S (statements w).
Proof.
  split; [apply CheckStatus_table |].
  destruct (String.eqb_spec (CheckStatusRequest.SerialNumber req) "") as [Hs | Hs].
  - rewrite (CheckStatus_serial_required req e w Hs). reflexivity.
  - destruct (db_fault e (statements w)) as [cause |] eqn:Hf.
    + rewrite (CheckStatus_lookup_error req e w Hs)
        by (left; rewrite Hf; eexists; reflexivity).
      reflexivity.
    + destruct (ocsp_responses w !! CheckStatusRequest.SerialNumber req)
        as [row |] eqn:Hrow.
      * rewrite (CheckStatus_found req e w row Hs Hf Hrow). reflexivity.
      * rewrite (CheckStatus_lookup_error req e w Hs (or_intror Hrow)).
        reflexivity.
Qed.

(** X8. After a successful [UpdateStatus] that does not revoke with a
    revocation time (the status is not "revoked", or no time came with the
    request), a [CheckStatus] on the same serial whose lookup the store
    completes returns no revocation time and no reason, whatever time and
    reason the request carried. *)
Theorem CheckStatus_no_revocation_unless_revoked
    (e : Env) (req : UpdateStatusRequest.t) (w w' : World)
    (ack : UpdateStatusResponse.t) :
  UpdateStatusRequest.Status req <> "revoked"
  \/ UpdateStatusRequest.RevokedAt req = None ->
  UpdateStatus req e w = (Ok ack, w') ->
  db_fault e (statements w') = None ->
  exists w'',
    CheckStatus (CheckStatusRequest.mk (UpdateStatusRequest.SerialNumber req)) e w'
    = (Ok (CheckStatusResponse.mk (requested_status req)
             (Some (db_now e (statements w)))
             (Some (db_now e (statements w) + 24 * time.Hour))
             None ""), w'').
Proof.
  intros Hno Hup Hdb.
  destruct (UpdateStatus_Ok_inv req e w w' ack Hup)
    as (Hs & _ & _ & _ & Htbl & _ & _).
  eexists.
  rewrite (CheckStatus_found
             (CheckStatusRequest.mk (UpdateStatusRequest.SerialNumber req))
             e w' _ Hs Hdb)
    by (rewrite Htbl; apply lookup_insert_eq).
  unfold view_of. cbn [pgx.revoked_at pgx.status pgx.this_update
    pgx.next_update pgx.revocation_reason].
  destruct Hno as [Hst | Hat].
  - rewrite (eqb_string_false _ _ Hst). reflexivity.
  - rewrite Hat.
    destruct (UpdateStatusRequest.Status req =? "revoked")%string; reflexivity.
Qed.

Lemma CheckStatus_no_revocation_unless_revoked_witness :
  exists w'',
    CheckStatus (CheckStatusRequest.mk "A1") store_up
      (snd (UpdateStatus (UpdateStatusRequest.mk "A1" "" (Some 77) "superseded")
              store_up boot))
    = (Ok (CheckStatusResponse.mk "good" (Some 1000)
             (Some (1000 + 24 * time.Hour)) None ""), w'').
Proof.
  apply (CheckStatus_no_revocation_unless_revoked store_up
           (UpdateStatusRequest.mk "A1" "" (Some 77) "superseded") boot
           (snd (UpdateStatus (UpdateStatusRequest.mk "A1" "" (Some 77) "superseded")
                   store_up boot))
           (UpdateStatusResponse.mk true "status updated successfully")).
  - left. discriminate.
  - reflexivity.
  - reflexivity.
Defined.

(** X9. With a process clock that never runs backwards, the response of
    [CheckStatus] for a serial without a record has nextUpdate at least 24
    hours after thisUpdate: exactly 24 hours plus the time between its two
    readings of the clock. *)
Theorem CheckStatus_unknown_window
    (e : Env) (req : CheckStatusRequest.t) (w : World) :
  monotone (wall e) ->
  CheckStatusRequest.SerialNumber req <> "" ->
  ocsp_responses w !! CheckStatusRequest.SerialNumber req = None ->
  exists thisUpdate nextUpdate view,
    fst (CheckStatus req e w) = Ok view
    /\ CheckStatusResponse.ThisUpdate view = Some thisUpdate
    /\ CheckStatusResponse.NextUpdate view = Some nextUpdate
    /\ nextUpdate - thisUpdate
       = 24 * time.Hour + (wall e (S (clock_reads w)) - wall e (clock_reads w))
    /\ thisUpdate + 24 * time.Hour <= nextUpdate.
Proof.
  intros Hmono Hs Hrow.
  rewrite (CheckStatus_lookup_error req e w Hs (or_intror Hrow)).
  eexists _, _, _. split; [reflexivity |].
  split; [reflexivity |]. split; [reflexivity |].
  unfold time.Add. specialize (Hmono (clock_reads w)). split; lia.
Qed.

Lemma monotone_store_up : monotone (wall store_up).
Proof. intros n. cbn. lia. Qed.

Lemma CheckStatus_unknown_window_witness :
  exists thisUpdate nextUpdate view,
    fst (CheckStatus (CheckStatusRequest.mk "FFEE01") store_up boot) = Ok view
    /\ CheckStatusResponse.ThisUpdate view = Some thisUpdate
    /\ CheckStatusResponse.NextUpdate view = Some nextUpdate
    /\ nextUpdate - thisUpdate
       = 24 * time.Hour
         + (wall store_up (S (clock_reads boot)) - wall store_up (clock_reads boot))
    /\ thisUpdate + 24 * time.Hour <= nextUpdate.
Proof.
  apply (CheckStatus_unknown_window store_up (CheckStatusRequest.mk "FFEE01") boot).
  - exact monotone_store_up.
  - discriminate.
  - reflexivity.
Defined.

(** *** Writes to the same serial *)

(** X10. Of two successful [UpdateStatus] calls in a row for the same
    serial only the second shows in the table: the table is the one before
    the first call with the row of the second request, and nothing of the
    first request is kept. *)
Theorem UpdateStatus_last_write_wins
    (e : Env) (req1 req2 : UpdateStatusRequest.t) (w w1 w2 : World)
    (ack1 ack2 : UpdateStatusResponse.t) :
  UpdateStatusRequest.SerialNumber req1 = UpdateStatusRequest.SerialNumber req2 ->
  UpdateStatus req1 e w = (Ok ack1, w1) ->
  UpdateStatus req2 e w1 = (Ok ack2, w2) ->
  ocsp_responses w2
  = <[UpdateStatusRequest.SerialNumber req2 :=
        row_of req2 (db_now e (S (statements w)))]> (ocsp_responses w).
Proof.
  intros Hserial H1 H2.
  destruct (UpdateStatus_Ok_inv req1 e w w1 ack1 H1)
    as (_ & _ & _ & _ & Ht1 & Hn1 & _).
  destruct (UpdateStatus_Ok_inv req2 e w1 w2 ack2 H2)
    as (_ & _ & _ & _ & Ht2 & _ & _).
  rewrite Ht2, Ht1, Hn1, Hserial. unfold row_of.
  apply insert_insert_eq.
Qed.

Lemma UpdateStatus_last_write_wins_witness :
  ocsp_responses
    (snd (UpdateStatus (UpdateStatusRequest.mk "ABC123" "good" None "") store_up
            (snd (UpdateStatus revoke_ABC123 store_up boot))))
  = <[ "ABC123" :=
        row_of (UpdateStatusRequest.mk "ABC123" "good" None "")
               (db_now store_up (S (statements boot)))]> (ocsp_responses boot).
Proof.
  apply (UpdateStatus_last_write_wins store_up revoke_ABC123
           (UpdateStatusRequest.mk "ABC123" "good" None "") boot
           (snd (UpdateStatus revoke_ABC123 store_up boot))
           (snd (UpdateStatus (UpdateStatusRequest.mk "ABC123" "good" None "")
                   store_up (snd (UpdateStatus revoke_ABC123 store_up boot))))
           (UpdateStatusResponse.mk true "status updated successfully")
           (UpdateStatusResponse.mk true "status updated successfully")).
  - reflexivity.
  - reflexivity.
  - reflexivity.
Defined.

(** *** A batch and the same requests one by one *)

Lemma same_store_logged (entries : list zap.Entry) (w1 w2 : World) :
  same_store w1 w2 -> same_store (logged entries w1) w2.
Proof. unfold same_store, logged. cbn. tauto. Qed.

(** The log has no part in what [UpdateStatus] returns and does to the
    store. *)
Lemma UpdateStatus_same_store (req : UpdateStatusRequest.t) (e : Env) (w1 w2 : World) :
  same_store w1 w2 ->
  fst (UpdateStatus req e w1) = fst (UpdateStatus req e w2)
  /\ same_store (snd (UpdateStatus req e w1)) (snd (UpdateStatus req e w2)).
Proof.
  intros (Ht & Hn & Hc). unfold same_store.
  destruct (UpdateStatus_cases req) as [Hs | [[Hs Hst] | [Hs Hst]]].
  - rewrite !(UpdateStatus_serial_required req e _ Hs). cbn. tauto.
  - rewrite !(UpdateStatus_status_invalid req e _ Hs Hst). cbn. tauto.
  - rewrite !(UpdateStatus_validated req e _ Hs Hst). rewrite Hn.
    destruct (db_fault e (statements w2)); cbn; rewrite ?Ht, ?Hn, ?Hc; tauto.
Qed.

Lemma each_UpdateStatus_same_store (updates : list UpdateStatusRequest.t) (e : Env) :
  forall w1 w2 : World,
    same_store w1 w2 ->
    fst (each_UpdateStatus updates e w1) = fst (each_UpdateStatus updates e w2)
    /\ same_store (snd (each_UpdateStatus updates e w1))
                  (snd (each_UpdateStatus updates e w2)).
Proof.
  induction updates as [| update rest IH]; intros w1 w2 Hw; [split; [reflexivity | exact Hw] |].
  cbn [each_UpdateStatus]. unfold bind, ret.
  destruct (UpdateStatus_same_store update e w1 w2 Hw) as [Hr Hw'].
  destruct (UpdateStatus update e w1) as [r1 w1'].
  destruct (UpdateStatus update e w2) as [r2 w2'].
  cbn [fst snd] in Hr, Hw'. subst r2.
  destruct (IH w1' w2' Hw') as [Hrs Hws].
  destruct (each_UpdateStatus rest e w1') as [rs1 w1''].
  destruct (each_UpdateStatus rest e w2') as [rs2 w2''].
  cbn [fst snd] in *. subst rs2. split; [reflexivity | exact Hws].
Qed.

Lemma each_UpdateStatus_serve_all (updates : list UpdateStatusRequest.t) (e : Env) :
  forall w : World,
    snd (each_UpdateStatus updates e w)
    = serve_all (map CallUpdateStatus updates) e w.
Proof.
  induction updates as [| update rest IH]; intros w; [reflexivity |].
  cbn [each_UpdateStatus map]. unfold serve_all. cbn [fold_left serve].
  unfold bind, ret.
  destruct (UpdateStatus update e w) as [r w1]. cbn [snd].
  specialize (IH w1). unfold serve_all in IH. rewrite <- IH.
  destruct (each_UpdateStatus rest e w1) as [rs w2]. reflexivity.
Qed.

(** The world a batch leaves: the one its items leave, with the closing
    log entry. *)
Lemma BatchUpdateStatus_world (req : BatchUpdateStatusRequest.t) (e : Env) (w : World) :
  exists entry,
    snd (BatchUpdateStatus req e w)
    = logged [entry]
        (snd (each_UpdateStatus (BatchUpdateStatusRequest.Updates req) e
                (logged [received_BatchUpdateStatus req] w))).
Proof.
  unfold BatchUpdateStatus. unfold bind at 1 2. unfold logger at 1.
  fold (received_BatchUpdateStatus req).
  fold (logged [received_BatchUpdateStatus req] w).
  rewrite range_Updates_each. unfold bind, logger, ret. cbn.
  eexists. reflexivity.
Qed.

(** X11. [BatchUpdateStatus] leaves the store as the same requests do
    when sent one by one as [UpdateStatus] calls, in the same order, and
    its errors are the messages of the calls that fail among them. *)
Theorem BatchUpdateStatus_as_sequence
    (e : Env) (req : BatchUpdateStatusRequest.t) (w : World) :
  same_store (snd (BatchUpdateStatus req e w))
             (serve_all (map CallUpdateStatus (BatchUpdateStatusRequest.Updates req)) e w)
  /\ exists resp,
       fst (BatchUpdateStatus req e w) = Ok resp
       /\ BatchUpdateStatusResponse.Errors resp
          = omap error_message
              (fst (each_UpdateStatus (BatchUpdateStatusRequest.Updates req) e w)).
Proof.
  destruct (each_UpdateStatus_same_store (BatchUpdateStatusRequest.Updates req) e
              (logged [received_BatchUpdateStatus req] w) w)
    as [Hrs Hws].
  { apply same_store_logged. unfold same_store. tauto. }
  split.
  - destruct (BatchUpdateStatus_world req e w) as [entry ->].
    rewrite <- each_UpdateStatus_serve_all.
    apply same_store_logged. exact Hws.
  - destruct (BatchUpdateStatus_each req e w) as (w' & -> & _).
    eexists. split; [reflexivity |].
    cbn [BatchUpdateStatusResponse.Errors]. rewrite Hrs. reflexivity.
Qed.

Lemma each_UpdateStatus_statements (updates : list UpdateStatusRequest.t) (e : Env) :
  forall w : World,
    statements (snd (each_UpdateStatus updates e w))
    = (statements w + length (List.filter passes_validation updates))%nat
    /\ clock_reads (snd (each_UpdateStatus updates e w)) = clock_reads w.
Proof.
  induction updates as [| update rest IH]; intros w; [cbn; split; [lia | reflexivity] |].
  cbn [each_UpdateStatus List.filter]. unfold bind, ret.
  pose proof (UpdateStatus_effects update e w) as Heff.
  destruct (UpdateStatus update e w) as [r w1]. cbn [fst snd] in Heff.
  specialize (IH w1).
  destruct (each_UpdateStatus rest e w1) as [rs w2]. cbn [snd] in *.
  destruct IH as [IHn IHc]. rewrite IHn, IHc.
  destruct (passes_validation update).
  - destruct Heff as (_ & -> & ->). cbn [length]. split; [lia | reflexivity].
  - destruct Heff as (_ & _ & -> & ->). split; reflexivity.
Qed.

(** X12. [BatchUpdateStatus] sends one statement to the store for each
    item that passes validation and none for the others, and never reads
    the process clock. *)
Theorem BatchUpdateStatus_statements
    (e : Env) (req : BatchUpdateStatusRequest.t) (w : World) :
  statements (snd (BatchUpdateStatus req e w))
  = (statements w
     + length (List.filter passes_validation (BatchUpdateStatusRequest.Updates req)))%nat
  /\ clock_reads (snd (BatchUpdateStatus req e w)) = clock_reads w.
Proof.
  destruct (BatchUpdateStatus_world req e w) as [entry ->].
  cbn [logged statements clock_reads].
  apply (each_UpdateStatus_statements (BatchUpdateStatusRequest.Updates req) e
           (logged [received_BatchUpdateStatus req] w)).
Qed.

(** *** The counts of a batch of any length *)

Lemma int_incr (a : Z) : goint.incr (goint.int a) = goint.int (a + 1).
Proof.
  unfold goint.incr, goint.int, goint.wrap.
  change (2 ^ (64 - 1)) with 9223372036854775808.
  change (2 ^ 64) with 18446744073709551616.
  f_equal.
  replace ((a + 9223372036854775808) mod 18446744073709551616
           - 9223372036854775808 + 1 + 9223372036854775808)
    with ((a + 9223372036854775808) mod 18446744073709551616 + 1) by lia.
  rewrite Zplus_mod_idemp_l. f_equal. lia.
Qed.

(** Counting [n] times from 0 in an [int]. *)
Lemma iter_incr_int (n : nat) :
  Nat.iter n goint.incr 0 = goint.int (Z.of_nat n).
Proof.
  induction n as [| n IH]; [reflexivity |].
  rewrite Nat.iter_succ, IH, int_incr. f_equal. lia.
Qed.

(** Converting an [int] to [int32] keeps the low 32 bits. *)
Lemma int32_int (z : Z) : goint.int32 (goint.int z) = goint.int32 z.
Proof.
  unfold goint.int32, goint.int, goint.wrap.
  change (2 ^ (64 - 1)) with 9223372036854775808.
  change (2 ^ 64) with 18446744073709551616.
  change (2 ^ (32 - 1)) with 2147483648.
  change (2 ^ 32) with 4294967296.
  f_equal.
  rewrite (Z.mod_eq (z + 9223372036854775808) 18446744073709551616) by lia.
  replace (z + 9223372036854775808
           - 18446744073709551616
             * ((z + 9223372036854775808) / 18446744073709551616)
           - 9223372036854775808 + 2147483648)
    with (z + 2147483648
          + (- 4294967296 * ((z + 9223372036854775808) / 18446744073709551616))
            * 4294967296) by lia.
  apply Z_mod_plus_full.
Qed.

Lemma int32_spec (z : Z) :
  - 2 ^ 31 <= goint.int32 z < 2 ^ 31 /\ (goint.int32 z - z) mod 2 ^ 32 = 0.
Proof.
  unfold goint.int32, goint.wrap.
  change (2 ^ (32 - 1)) with 2147483648.
  change (2 ^ 32) with 4294967296.
  change (2 ^ 31) with 2147483648.
  pose proof (Z.mod_pos_bound (z + 2147483648) 4294967296 ltac:(lia)) as Hb.
  split; [lia |].
  rewrite (Z.mod_eq (z + 2147483648) 4294967296) by lia.
  replace (z + 2147483648 - 4294967296 * ((z + 2147483648) / 4294967296)
           - 2147483648 - z)
    with (0 + (- ((z + 2147483648) / 4294967296)) * 4294967296) by lia.
  rewrite Z_mod_plus_full. reflexivity.
Qed.

(** X13. For a batch of any length, successCount and failureCount are
    the numbers of items that succeeded and failed converted to [int32]:
    they lie between -2^31 and 2^31 - 1 and differ from those numbers by a
    multiple of 2^32. The list of errors has one message for each failed
    item, and the succeeded and failed items are all the items. *)
Theorem BatchUpdateStatus_counts_int32
    (e : Env) (req : BatchUpdateStatusRequest.t) (w : World) :
  exists resp,
    fst (BatchUpdateStatus req e w) = Ok resp
    /\ BatchUpdateStatusResponse.SuccessCount resp
       = goint.int32
           (Z.of_nat (length (List.filter succeeded
              (fst (each_UpdateStatus (BatchUpdateStatusRequest.Updates req) e w)))))
    /\ BatchUpdateStatusResponse.FailureCount resp
       = goint.int32 (goint.len (BatchUpdateStatusResponse.Errors resp))
    /\ length (BatchUpdateStatusResponse.Errors resp)
       = length (List.filter failed
           (fst (each_UpdateStatus (BatchUpdateStatusRequest.Updates req) e w)))
    /\ (length (List.filter succeeded
          (fst (each_UpdateStatus (BatchUpdateStatusRequest.Updates req) e w)))
        + length (BatchUpdateStatusResponse.Errors resp))%nat
       = length (BatchUpdateStatusRequest.Updates req)
    /\ (- 2 ^ 31 <= BatchUpdateStatusResponse.SuccessCount resp < 2 ^ 31
        /\ - 2 ^ 31 <= BatchUpdateStatusResponse.FailureCount resp < 2 ^ 31)
    /\ (BatchUpdateStatusResponse.SuccessCount resp
        + BatchUpdateStatusResponse.FailureCount resp
        - goint.len (BatchUpdateStatusRequest.Updates req)) mod 2 ^ 32 = 0.
Proof.
  destruct (each_UpdateStatus_same_store (BatchUpdateStatusRequest.Updates req) e
              (logged [received_BatchUpdateStatus req] w) w)
    as [Hrs _].
  { apply same_store_logged. unfold same_store. tauto. }
  destruct (BatchUpdateStatus_each req e w) as (w' & -> & _).
  rewrite Hrs. clear Hrs.
  pose proof (each_UpdateStatus_length (BatchUpdateStatusRequest.Updates req) e w)
    as Hall.
  set (outcomes := fst (each_UpdateStatus (BatchUpdateStatusRequest.Updates req) e w))
    in *.
  pose proof (outcomes_partition outcomes) as Hpart.
  pose proof (error_messages_length outcomes) as Herrs.
  eexists. split; [reflexivity |].
  cbn [BatchUpdateStatusResponse.SuccessCount BatchUpdateStatusResponse.FailureCount
       BatchUpdateStatusResponse.Errors].
  unfold goint.len. rewrite !iter_incr_int, !int32_int, Herrs.
  split; [reflexivity |]. split; [reflexivity |]. split; [reflexivity |].
  split; [lia |].
  destruct (int32_spec (Z.of_nat (length (List.filter succeeded outcomes))))
    as [Hsr Hsm].
  destruct (int32_spec (Z.of_nat (length (List.filter failed outcomes))))
    as [Hfr Hfm].
  split; [split; assumption |].
  apply Z.mod_divide in Hsm; [| discriminate].
  apply Z.mod_divide in Hfm; [| discriminate].
  apply Z.mod_divide; [discriminate |].
  replace (goint.int32 (Z.of_nat (length (List.filter succeeded outcomes)))
           + goint.int32 (Z.of_nat (length (List.filter failed outcomes)))
           - Z.of_nat (length (BatchUpdateStatusRequest.Updates req)))
    with ((goint.int32 (Z.of_nat (length (List.filter succeeded outcomes)))
           - Z.of_nat (length (List.filter succeeded outcomes)))
          + (goint.int32 (Z.of_nat (length (List.filter failed outcomes)))
             - Z.of_nat (length (List.filter failed outcomes)))) by lia.
  apply Z.divide_add_r; assumption.
Qed.

(** *** What the rows of the table have in common *)

Section RowsAll.

Variable P : pgx.Row -> Prop.
Hypothesis written :
  forall req now, passes_validation req = true -> P (row_of req now).

Lemma rows_all_insert (tbl : gmap string pgx.Row) (serial : string) (row : pgx.Row) :
  rows_all P tbl -> P row -> rows_all P (<[serial := row]> tbl).
Proof.
  intros Htbl Hrow serial' row' Hlook.
  destruct (decide (serial = serial')) as [<- | Hne].
  - rewrite lookup_insert_eq in Hlook. injection Hlook as <-. exact Hrow.
  - rewrite lookup_insert_ne in Hlook by exact Hne. exact (Htbl _ _ Hlook).
Qed.

Lemma UpdateStatus_rows_all (req : UpdateStatusRequest.t) (e : Env) (w : World) :
  rows_all P (ocsp_responses w) ->
  rows_all P (ocsp_responses (snd (UpdateStatus req e w))).
Proof.
  intros Hw. pose proof (UpdateStatus_effects req e w) as Heff.
  destruct (passes_validation req) eqn:Hv.
  - destruct (db_fault e (statements w)); destruct Heff as [[_ ->] _].
    + exact Hw.
    + apply rows_all_insert; [exact Hw | apply written, Hv].
  - destruct Heff as (_ & -> & _). exact Hw.
Qed.

Lemma each_UpdateStatus_rows_all (updates : list UpdateStatusRequest.t) (e : Env) :
  forall w : World,
    rows_all P (ocsp_responses w) ->
    rows_all P (ocsp_responses (snd (each_UpdateStatus updates e w))).
Proof.
  induction updates as [| update rest IH]; intros w Hw; [exact Hw |].
  cbn [each_UpdateStatus]. unfold bind, ret.
  pose proof (UpdateStatus_rows_all update e w Hw) as Hw1.
  destruct (UpdateStatus update e w) as [r w1]. cbn [snd] in Hw1.
  specialize (IH w1 Hw1).
  destruct (each_UpdateStatus rest e w1) as [rs w2]. exact IH.
Qed.

Lemma serve_all_rows_all (cs : list Call) (e : Env) :
  forall w : World,
    rows_all P (ocsp_responses w) ->
    rows_all P (ocsp_responses (serve_all cs e w)).
Proof.
  induction cs as [| c cs IH]; intros w Hw; [exact Hw |].
  cbn [serve_all fold_left]. apply IH.
  destruct c as [req | req | req]; cbn [serve].
  - apply UpdateStatus_rows_all, Hw.
  - rewrite CheckStatus_table. exact Hw.
  - destruct (BatchUpdateStatus_each req e w) as (w' & Hbatch & Htbl).
    rewrite Hbatch. cbn [snd]. rewrite Htbl.
    apply each_UpdateStatus_rows_all, Hw.
Qed.

End RowsAll.

Lemma row_of_status_kept (req : UpdateStatusRequest.t) (now : time.Time) :
  passes_validation req = true -> status_kept (row_of req now).
Proof.
  intros Hv. apply passes_validation_spec in Hv as [_ Hst].
  unfold status_kept, row_of. cbn. split; [exact Hst |].
  unfold requested_status.
  destruct (String.eqb_spec (UpdateStatusRequest.Status req) "revoked") as [-> | _].
  - reflexivity.
  - intros [t Ht]. discriminate.
Qed.

Lemma rows_all_empty (P : pgx.Row -> Prop) : rows_all P ∅.
Proof. intros serial row H. rewrite lookup_empty in H. discriminate. Qed.

(** X14. Whatever requests have been served, from a table whose rows all
    have a status among good, revoked and unknown, and a revocation time
    only under "revoked": every row still has, and every response of
    [CheckStatus] carries one of the three values, a revocation time only
    with "revoked", and a reason only with a revocation time. *)
Theorem stored_status_kept (e : Env) (cs : list Call) (w : World) :
  rows_all status_kept (ocsp_responses w) ->
  rows_all status_kept (ocsp_responses (serve_all cs e w))
  /\ forall req view w',
       CheckStatus req e (serve_all cs e w) = (Ok view, w') -> view_kept view.
Proof.
  intros Hw.
  pose proof (serve_all_rows_all status_kept row_of_status_kept cs e w Hw) as Hafter.
  split; [exact Hafter |].
  intros req view w' Hcheck.
  destruct (String.eqb_spec (CheckStatusRequest.SerialNumber req) "") as [Hs | Hs].
  { rewrite (CheckStatus_serial_required req e _ Hs) in Hcheck. discriminate. }
  assert (Hunknown : view_kept (unknown_view
            (wall e (clock_reads (serve_all cs e w)))
            (wall e (S (clock_reads (serve_all cs e w)))))).
  { unfold view_kept, unknown_view. cbn. split; [right; right; reflexivity |].
    split; [intros [t Ht]; discriminate | reflexivity]. }
  destruct (db_fault e (statements (serve_all cs e w))) as [cause |] eqn:Hf.
  { rewrite (CheckStatus_lookup_error req e _ Hs) in Hcheck
      by (left; rewrite Hf; eexists; reflexivity).
    injection Hcheck as <- _. exact Hunknown. }
  destruct (ocsp_responses (serve_all cs e w) !! CheckStatusRequest.SerialNumber req)
    as [row |] eqn:Hrow.
  - rewrite (CheckStatus_found req e _ row Hs Hf Hrow) in Hcheck.
    injection Hcheck as <- _.
    destruct (Hafter _ _ Hrow) as [Hst Hrev].
    unfold view_kept, view_of.
    destruct (pgx.revoked_at row) as [t |] eqn:Hat; cbn.
    + split; [exact Hst |]. split; [intros _; apply Hrev; eexists; reflexivity |].
      intros H. discriminate.
    + split; [exact Hst |]. split; [intros [t Ht]; discriminate | reflexivity].
  - rewrite (CheckStatus_lookup_error req e _ Hs (or_intror Hrow)) in Hcheck.
    injection Hcheck as <- _. exact Hunknown.
Qed.

Lemma stored_status_kept_witness :
  rows_all status_kept (ocsp_responses (serve_all some_calls store_up boot))
  /\ forall req view w',
       CheckStatus req store_up (serve_all some_calls store_up boot) = (Ok view, w') ->
       view_kept view.
Proof.
  apply (stored_status_kept store_up some_calls boot).
  exact (rows_all_empty status_kept).
Defined.

(** ** The response of a batch *)

(** The response of [BatchUpdateStatus], from the outcomes of its items
    called one by one. *)
Lemma BatchUpdateStatus_response (req : BatchUpdateStatusRequest.t) (e : Env) (w : World) :
  exists w',
    BatchUpdateStatus req e w =
      (Ok (BatchUpdateStatusResponse.mk
             (goint.int32 (Z.of_nat (length (List.filter succeeded
                (fst (each_UpdateStatus (BatchUpdateStatusRequest.Updates req) e w))))))
             (goint.int32 (Z.of_nat (length (List.filter failed
                (fst (each_UpdateStatus (BatchUpdateStatusRequest.Updates req) e w))))))
             (omap error_message
                (fst (each_UpdateStatus (BatchUpdateStatusRequest.Updates req) e w)))),
       w').
Proof.
  destruct (each_UpdateStatus_same_store (BatchUpdateStatusRequest.Updates req) e
              (logged [received_BatchUpdateStatus req] w) w)
    as [Hrs _].
  { apply same_store_logged. unfold same_store. tauto. }
  destruct (BatchUpdateStatus_each req e w) as (w' & -> & _).
  rewrite Hrs, !iter_incr_int, !int32_int.
  eexists. reflexivity.
Qed.

Lemma filter_succeeded_nil {E A} (rs : list (result E A)) :
  List.filter succeeded rs = [] -> List.filter failed rs = rs.
Proof.
  induction rs as [| [a | err] rs IH]; cbn; intros H;
    [reflexivity | discriminate | rewrite (IH H); reflexivity].
Qed.

(** C10. [BatchUpdateStatus] returns a response and no error for every
    sequence of updates: its counts are the numbers of items that
    succeeded and failed (as [int32]), which are all the items, and its
    errors the messages of the failed ones. For the empty sequence the
    response has both counts 0 and no errors; for a sequence whose items
    all fail it has successCount 0, the number of items as failureCount
    and one message for each item. *)
Theorem BatchUpdateStatus_never_errs
    (e : Env) (req : BatchUpdateStatusRequest.t) (w : World) :
  exists resp w',
    BatchUpdateStatus req e w = (Ok resp, w')
    /\ resp =
         BatchUpdateStatusResponse.mk
           (goint.int32 (Z.of_nat (length (List.filter succeeded
              (fst (each_UpdateStatus (BatchUpdateStatusRequest.Updates req) e w))))))
           (goint.int32 (Z.of_nat (length (List.filter failed
              (fst (each_UpdateStatus (BatchUpdateStatusRequest.Updates req) e w))))))
           (omap error_message
              (fst (each_UpdateStatus (BatchUpdateStatusRequest.Updates req) e w)))
    /\ (length (List.filter succeeded
           (fst (each_UpdateStatus (BatchUpdateStatusRequest.Updates req) e w)))
        + length (List.filter failed
            (fst (each_UpdateStatus (BatchUpdateStatusRequest.Updates req) e w))))%nat
       = length (BatchUpdateStatusRequest.Updates req)
    /\ (BatchUpdateStatusRequest.Updates req = [] ->
        resp = BatchUpdateStatusResponse.mk 0 0 [])
    /\ (List.filter succeeded
          (fst (each_UpdateStatus (BatchUpdateStatusRequest.Updates req) e w)) = [] ->
        BatchUpdateStatusResponse.SuccessCount resp = 0
        /\ BatchUpdateStatusResponse.FailureCount resp
           = goint.int32 (goint.len (BatchUpdateStatusRequest.Updates req))
        /\ length (BatchUpdateStatusResponse.Errors resp)
           = length (BatchUpdateStatusRequest.Updates req)).
Proof.
  destruct (BatchUpdateStatus_response req e w) as [w' Hbatch].
  pose proof (each_UpdateStatus_length (BatchUpdateStatusRequest.Updates req) e w)
    as Hall.
  pose proof (outcomes_partition
                (fst (each_UpdateStatus (BatchUpdateStatusRequest.Updates req) e w)))
    as Hpart.
  pose proof (error_messages_length
                (fst (each_UpdateStatus (BatchUpdateStatusRequest.Updates req) e w)))
    as Herrs.
  eexists _, w'. split; [exact Hbatch |]. split; [reflexivity |].
  split; [rewrite Hpart; exact Hall |]. split.
  - intros Hnil. rewrite Hnil. reflexivity.
  - intros Hnone.
    cbn [BatchUpdateStatusResponse.SuccessCount BatchUpdateStatusResponse.FailureCount
         BatchUpdateStatusResponse.Errors].
    rewrite Herrs, Hnone, (filter_succeeded_nil _ Hnone), Hall.
    split; [reflexivity |]. split; reflexivity.
Qed.

Lemma BatchUpdateStatus_never_errs_witness :
  exists resp w',
    BatchUpdateStatus batch_of_failures (store_down "connection refused") boot
      = (Ok resp, w')
    /\ resp =
         BatchUpdateStatusResponse.mk 0 3
           ["rpc error: code = InvalidArgument desc = serial number is required";
            "rpc error: code = InvalidArgument desc = invalid status (must be: good, revoked, or unknown)";
            "rpc error: code = Internal desc = failed to update status"].
Proof.
  destruct (BatchUpdateStatus_never_errs (store_down "connection refused")
              batch_of_failures boot)
    as (resp & w' & Hbatch & Hresp & _).
  exists resp, w'. split; [exact Hbatch |].
  rewrite Hresp. vm_compute. reflexivity.
Defined.

(** ** A read after a write when the store goes down in between *)

(** C1, on a store that completes the upsert and not the lookup after it:
    [UpdateStatus] stores ABC123 as revoked and reports success, and the
    [CheckStatus] that follows succeeds with status "unknown". *)
Theorem CheckStatus_after_UpdateStatus_store_down :
  exists w',
    UpdateStatus revoke_ABC123 (store_up_once "connection refused") boot
      = (Ok (UpdateStatusResponse.mk true "status updated successfully"), w')
    /\ option_map pgx.status (ocsp_responses w' !! "ABC123") = Some "revoked"
    /\ fst (CheckStatus (CheckStatusRequest.mk "ABC123")
              (store_up_once "connection refused") w')
       = Ok (CheckStatusResponse.mk "unknown" (Some 5000)
               (Some (5001 + 24 * time.Hour)) None "").
Proof.
  exists (snd (UpdateStatus revoke_ABC123 (store_up_once "connection refused") boot)).
  split; [reflexivity |]. split.
  - vm_compute. reflexivity.
  - rewrite CheckStatus_lookup_error.
    + reflexivity.
    + discriminate.
    + left. eexists. reflexivity.
Qed.
